(** * Confidence interval of a sample mean and its Monte Carlo coverage

    A shallow embedding of the notebook [Confidence_Intervals.ipynb]: the
    function [calculate_confidence_interval_of_sample_mean] and the loop that
    repeats "draw a sample, compute the interval, record whether it contains
    the population mean" and prints the mean of the recorded booleans.

    Numbers.  The notebook computes with NumPy's float64.  Here a float64 is
    a real number or NaN ([npfloat]); rounding, overflow, the two infinities
    and the sign of zero are not represented.  NaN behaves as in NumPy: it
    is absorbing for the arithmetic and every comparison with it is false.
    Where rounding or overflow decides a question, the estimator is also
    given on binary64 floats themselves (module [f64]) and run there.

    Libraries.  [numpy.mean], [numpy.std], [numpy.sqrt] and
    [numpy.random.normal] are embedded from NumPy's own definitions
    (module [np]).  [scipy.stats.norm.ppf] stays a parameter; where a
    property needs it, it is assumed to invert, on (0,1), a strictly
    increasing distribution function symmetric about 0
    ([normal_quantile]).

    Two more notebooks follow the same conventions: the function
    [determine_experiment_size] of the notebook on the size of an
    experiment, and the sweep of precision and recall over thresholds of the
    notebook on their trade-off. *)

From Stdlib Require Import Reals Lra Lia List Permutation Bool Arith ZArith.
From Stdlib Require PrimFloat Uint63.
Import ListNotations.

Local Open Scope R_scope.

(** ** float64 and the NumPy routines the notebook calls *)

Inductive npfloat : Type :=
| Fin (r : R)
| NaN.

Declare Scope np_scope.
Delimit Scope np_scope with np.
Bind Scope np_scope with npfloat.

(** Python exceptions and results: NumPy's sampler is the one call of the
    notebook that can raise. *)
Inductive exn : Type :=
| ValueError.

Inductive result (A : Type) : Type :=
| Ok (a : A)
| Raise (e : exn).

Arguments Ok {A} a.
Arguments Raise {A} e.

Definition bind {A B : Type} (c : result A) (k : A -> result B) : result B :=
  match c with
  | Ok a => k a
  | Raise e => Raise e
  end.

Notation "' p <- c ;; k" := (bind c (fun p => k))
  (at level 61, p pattern, c at next level, right associativity).

Module np.

Definition lift2 (op : R -> R -> R) (a b : npfloat) : npfloat :=
  match a, b with
  | Fin x, Fin y => Fin (op x y)
  | _, _ => NaN
  end.

Definition add : npfloat -> npfloat -> npfloat := lift2 Rplus.
Definition subtract : npfloat -> npfloat -> npfloat := lift2 Rminus.
Definition multiply : npfloat -> npfloat -> npfloat := lift2 Rmult.

(** [x / 0] is NaN here.  NumPy gives NaN for [0 / 0] and an infinity for a
    non-zero [x]; the divisors of this notebook are element counts and their
    square roots, and they are zero only under a zero or NaN numerator. *)
Definition true_divide (a b : npfloat) : npfloat :=
  match a, b with
  | Fin x, Fin y => if Req_dec_T y 0 then NaN else Fin (x / y)
  | _, _ => NaN
  end.

Definition sqrt (a : npfloat) : npfloat :=
  match a with
  | Fin x => if Rlt_dec x 0 then NaN else Fin (R_sqrt.sqrt x)
  | NaN => NaN
  end.

Definition less_equal (a b : npfloat) : bool :=
  match a, b with
  | Fin x, Fin y => if Rle_dec x y then true else false
  | _, _ => false
  end.

(** A one-dimensional float64 array. *)
Definition ndarray : Type := list npfloat.

Definition of_reals (xs : list R) : ndarray := map Fin xs.

(** A Python [bool] read as a number, as [np.mean] does with a list of
    booleans. *)
Definition of_bool (b : bool) : npfloat := Fin (if b then 1 else 0).

(** [np.add.reduce]: the running sum, from 0. *)
Definition umr_sum (arr : ndarray) : npfloat := fold_left add arr (Fin 0).

(** [ndarray.mean()] and [np.mean]: the sum over the number of items. *)
Definition mean (arr : ndarray) : npfloat :=
  true_divide (umr_sum arr) (Fin (INR (length arr))).

(** [ndarray.var(ddof)], as NumPy's [_var] computes it: the mean, the
    deviations from it, their squares, the sum of the squares, and the
    division by [max (N - ddof) 0]. *)
Definition var (ddof : nat) (arr : ndarray) : npfloat :=
  let arrmean := true_divide (umr_sum arr) (Fin (INR (length arr))) in
  let x := map (fun a => subtract a arrmean) arr in
  let x := map (fun d => multiply d d) x in
  let ret := umr_sum x in
  let rcount := Nat.max (length arr - ddof) 0 in
  true_divide ret (Fin (INR rcount)).

(** [ndarray.std(ddof)]. *)
Definition std (ddof : nat) (arr : ndarray) : npfloat := sqrt (var ddof arr).

(** The state of the global generator: the stream of standard normal
    deviates it produces, and how many it has handed out. *)
Record RandomState : Type := {
  deviates : nat -> R;
  pos : nat
}.

Definition standard_normal (size : nat) (g : RandomState) : list R :=
  map (fun i => deviates g (pos g + i)%nat) (seq 0 size).

Definition advance (size : nat) (g : RandomState) : RandomState :=
  {| deviates := deviates g; pos := (pos g + size)%nat |}.

(** [np.random.normal(loc, scale, size)]: [ValueError] for a negative scale
    and for a negative size, otherwise [size] deviates scaled and shifted,
    and the generator moved on by [size].  A real scale has no sign of
    zero: 0 here is NumPy's +0.0 (NumPy rejects -0.0 like a negative
    scale). *)
Definition random_normal (loc scale : R) (size : Z) (g : RandomState)
  : result (ndarray * RandomState) :=
  if Rlt_dec scale 0 then Raise ValueError
  else if (size <? 0)%Z then Raise ValueError
  else Ok (of_reals (map (fun d => loc + scale * d)
                         (standard_normal (Z.to_nat size) g)),
           advance (Z.to_nat size) g).

(** [np.ceil]. *)
Definition ceil (a : npfloat) : npfloat :=
  match a with
  | Fin x => Fin (IZR (Zceil x))
  | NaN => NaN
  end.

(** [a ** n] for a literal exponent [n]; [nan ** 0] is 1. *)
Definition power (a : npfloat) (n : nat) : npfloat :=
  match n, a with
  | O, _ => Fin 1
  | S _, Fin x => Fin (x ^ n)
  | S _, NaN => NaN
  end.

(** [np.arange(start, stop, step)], for a step other than 0: the
    [ceil((stop - start) / step)] values [start + i * step]. *)
Definition arange (start stop step : R) : list R :=
  map (fun i => start + INR i * step)
      (seq 0 (Z.to_nat (Zceil ((stop - start) / step)))).

(** [arr >= t], item by item. *)
Definition greater_equal (arr : list R) (t : R) : list bool :=
  map (fun p => if Rle_dec t p then true else false) arr.

End np.

Infix "+" := np.add : np_scope.
Infix "-" := np.subtract : np_scope.
Infix "*" := np.multiply : np_scope.
Infix "/" := np.true_divide : np_scope.
Infix "<=?" := np.less_equal (at level 70) : np_scope.

(** ** The notebook cell *)

Section Notebook.

(** [scipy.stats.norm.ppf]. *)
Variable norm_ppf : R -> npfloat.

Definition calculate_confidence_interval_of_sample_mean
           (sample : np.ndarray) (alpha : R) : npfloat * npfloat :=
  let N := length sample in
  let sample_mean := np.mean sample in
  let sample_std := np.std 1 sample in
  let z_value := norm_ppf (1 - alpha / 2) in
  let ci_lb := (sample_mean - z_value * sample_std / np.sqrt (Fin (INR N)))%np in
  let ci_ub := (sample_mean + z_value * sample_std / np.sqrt (Fin (INR N)))%np in
  (ci_lb, ci_ub).

(** The chained comparison [ci_lb <= mu <= ci_ub]. *)
Definition ci_contains (ci : npfloat * npfloat) (mu : R) : bool :=
  let '(ci_lb, ci_ub) := ci in
  ((ci_lb <=? Fin mu)%np && (Fin mu <=? ci_ub)%np)%bool.

(** One turn of the loop up to the interval: draw the sample, compute the
    interval.  The notebook's constants [mu], [sigma], [N] and the level
    0.05 = 1 - confidence_level are parameters here; the sample size is any
    Python integer. *)
Definition run_trial (mu sigma : R) (N : Z) (confidence_level : R)
           (g : np.RandomState) : result ((npfloat * npfloat) * np.RandomState) :=
  ' (sample, g') <- np.random_normal mu sigma N g ;;
  Ok (calculate_confidence_interval_of_sample_mean sample (1 - confidence_level),
      g').

(** [for _ in range(num_trials)], with the list the loop appends to.  The
    sample size of the loop is a count. *)
Fixpoint coverage_loop (mu sigma : R) (N : nat) (confidence_level : R)
         (num_trials : nat) (ci_contains_population_mean : list bool)
         (g : np.RandomState) : result (list bool * np.RandomState) :=
  match num_trials with
  | O => Ok (ci_contains_population_mean, g)
  | S remaining =>
      ' (ci, g') <- run_trial mu sigma (Z.of_nat N) confidence_level g ;;
      coverage_loop mu sigma N confidence_level remaining
                    (ci_contains_population_mean ++ [ci_contains ci mu]) g'
  end.

(** The whole cell: the loop from the empty list, then the mean of the
    recorded booleans (the number the cell prints). *)
Definition estimate_coverage (mu sigma : R) (N : nat) (confidence_level : R)
           (num_trials : nat) (g : np.RandomState)
  : result (npfloat * np.RandomState) :=
  ' (ci_contains_population_mean, g') <-
      coverage_loop mu sigma N confidence_level num_trials [] g ;;
  Ok (np.mean (map np.of_bool ci_contains_population_mean), g').

(** What one trial records, from its sample alone. *)
Definition trial_outcome (mu confidence_level : R) (sample : np.ndarray) : bool :=
  ci_contains
    (calculate_confidence_interval_of_sample_mean sample (1 - confidence_level))
    mu.

End Notebook.

(** The sample of trial number [i]: the [N] deviates after the first [i * N]
    still to come, scaled and shifted. *)
Definition trial_sample (mu sigma : R) (N : nat) (g : np.RandomState) (i : nat)
  : np.ndarray :=
  np.of_reals (map (fun d => mu + sigma * d)
                   (np.standard_normal N (np.advance (i * N) g))).

(** What trial number [i] records. *)
Definition recorded_outcome (norm_ppf : R -> npfloat) (mu sigma : R) (N : nat)
           (confidence_level : R) (g : np.RandomState) (i : nat) : bool :=
  trial_outcome norm_ppf mu confidence_level (trial_sample mu sigma N g i).

(** A generator whose deviates are all 0, and one whose first two deviates
    are 10 and the rest 0. *)
Definition zeros : np.RandomState :=
  {| np.deviates := fun _ => 0; np.pos := 0 |}.

Definition tens_then_zeros : np.RandomState :=
  {| np.deviates := fun i => if (i <? 2)%nat then 10 else 0; np.pos := 0 |}.

Definition width (ci : npfloat * npfloat) : npfloat := (snd ci - fst ci)%np.

(** An interval with real bounds that holds [mu], both ends included. *)
Definition holds (ci : npfloat * npfloat) (mu : R) : Prop :=
  exists lb ub, ci = (Fin lb, Fin ub) /\ lb <= mu <= ub.

Definition covering (outcomes : list bool) : nat :=
  count_occ bool_dec outcomes true.

(** ** The contract of the quantile function

    [ppf p], for [p] in (0,1), is the point where the distribution function
    [Phi] takes the value [p]; [Phi] is strictly increasing and symmetric
    about 0, as the standard normal one is. *)

Record normal_quantile (Phi : R -> R) (ppf : R -> npfloat) : Prop := {
  Phi_increasing : forall x y, x < y -> Phi x < Phi y;
  Phi_symmetric : forall x, Phi (- x) = 1 - Phi x;
  ppf_inverts : forall p, 0 < p < 1 -> exists z, ppf p = Fin z /\ Phi z = p
}.

(** A distribution that meets the contract in closed form: the logistic
    one. *)
Definition logistic_cdf (x : R) : R := / (1 + exp (- x)).

Definition logistic_ppf (p : R) : npfloat :=
  if Rlt_dec 0 p then
    if Rlt_dec p 1 then Fin (ln (p / (1 - p))) else NaN
  else NaN.

(** ** The interval as the specification words it *)

Definition Rsum (xs : list R) : R := fold_right Rplus 0 xs.

Definition arithmetic_mean (xs : list R) : npfloat :=
  (Fin (Rsum xs) / Fin (INR (length xs)))%np.

Definition sum_of_squared_deviations (m : R) (xs : list R) : R :=
  Rsum (map (fun x => (x - m) * (x - m)) xs).

(** Bessel's correction: the divisor is [N - 1]. *)
Definition bessel_std (xs : list R) : npfloat :=
  match arithmetic_mean xs with
  | Fin m =>
      np.sqrt (Fin (sum_of_squared_deviations m xs) / Fin (INR (length xs) - 1))%np
  | NaN => NaN
  end.


(** The same quantities as real numbers, for samples of two items or more. *)
Definition real_mean (xs : list R) : R := Rsum xs / INR (length xs).

Definition real_std (xs : list R) : R :=
  sqrt (sum_of_squared_deviations (real_mean xs) xs / (INR (length xs) - 1)).

Definition real_margin (z : R) (xs : list R) : R :=
  z * real_std xs / sqrt (INR (length xs)).

(** ** The worked scenario *)

Definition fixed_sample : list R := [998; 1002; 997; 1005; 999].

Definition approx (tolerance x v : R) : Prop := Rabs (x - v) <= tolerance.

(** The scenario at confidence level 0.95: the quantile is about 1.95996,
    the mean is [mean], and the standard deviation, the margin and the two
    bounds are, up to [tolerance], [std], [margin], [lower] and [upper]. *)
Definition scenario (norm_ppf : R -> npfloat) (tolerance : R)
           (mean std margin lower upper : R) : Prop :=
  exists z s m lb ub,
    norm_ppf (1 - (1 - 95 / 100) / 2) = Fin z /\
    approx tolerance z (195996 / 100000) /\
    np.mean (np.of_reals fixed_sample) = Fin mean /\
    np.std 1 (np.of_reals fixed_sample) = Fin s /\
    approx tolerance s std /\
    (Fin z * Fin s / np.sqrt (Fin (INR (length fixed_sample))))%np = Fin m /\
    approx tolerance m margin /\
    calculate_confidence_interval_of_sample_mean
      norm_ppf (np.of_reals fixed_sample) (1 - 95 / 100) = (Fin lb, Fin ub) /\
    approx tolerance lb lower /\
    approx tolerance ub upper.

(** ** Statements of the specification that the code does not meet *)

(** "Fails with an invalid-input error if and only if sample_size < 2 or
    confidence_level is not in (0,1)." *)
Definition raises_iff_invalid (norm_ppf : R -> npfloat) (mu sigma : R) (N : Z)
           (confidence_level : R) (g : np.RandomState) : Prop :=
  (exists e, run_trial norm_ppf mu sigma N confidence_level g = Raise e)
  <-> ((N < 2)%Z \/ ~ 0 < confidence_level < 1).

(** "Holding sample_std and confidence_level fixed, the width is strictly
    decreasing in sample_size." *)
Definition width_strictly_decreasing (norm_ppf : R -> npfloat) : Prop :=
  forall (xs1 xs2 : list R) (confidence_level : R),
    0 < confidence_level < 1 ->
    (2 <= length xs1)%nat ->
    (length xs1 < length xs2)%nat ->
    bessel_std xs1 = bessel_std xs2 ->
    exists w1 w2,
      width (calculate_confidence_interval_of_sample_mean
               norm_ppf (np.of_reals xs1) (1 - confidence_level)) = Fin w1 /\
      width (calculate_confidence_interval_of_sample_mean
               norm_ppf (np.of_reals xs2) (1 - confidence_level)) = Fin w2 /\
      w2 < w1.

(** ** The constants of the cell *)

Module cell.

Definition mu : R := 1000.
Definition sigma : R := 50.
Definition N : nat := 50.
Definition alpha : R := 5 / 100.
Definition num_trials : nat := 100 * 1000.

End cell.

(** ** The estimator on binary64 floats

    The same function on IEEE binary64 numbers, every operation rounded as
    the hardware rounds it.  NumPy adds the items of an array in an order of
    its own; the sums here go from left to right, which gives the same
    result on the samples run below, where every sum is exact or
    overflows.  The quantile function is a parameter here too. *)

Module f64.
Import PrimFloat.
Local Open Scope float_scope.
Set Warnings "-inexact-float".

Definition of_count (n : nat) : float := of_uint63 (Uint63.of_Z (Z.of_nat n)).

Definition umr_sum (arr : list float) : float := fold_left add arr 0%float.

Definition mean (arr : list float) : float :=
  div (umr_sum arr) (of_count (length arr)).

Definition var (ddof : nat) (arr : list float) : float :=
  let arrmean := div (umr_sum arr) (of_count (length arr)) in
  let x := map (fun a => sub a arrmean) arr in
  let x := map (fun d => mul d d) x in
  let ret := umr_sum x in
  let rcount := Nat.max (length arr - ddof) 0 in
  div ret (of_count rcount).

Definition std (ddof : nat) (arr : list float) : float := sqrt (var ddof arr).

Definition calculate_confidence_interval_of_sample_mean
           (norm_ppf : float -> float) (sample : list float) (alpha : float)
  : float * float :=
  let N := length sample in
  let sample_mean := mean sample in
  let sample_std := std 1 sample in
  let z_value := norm_ppf (sub 1 (div alpha 2)) in
  let ci_lb := sub sample_mean (div (mul z_value sample_std) (sqrt (of_count N))) in
  let ci_ub := add sample_mean (div (mul z_value sample_std) (sqrt (of_count N))) in
  (ci_lb, ci_ub).

(** [ci_lb <= ci_ub]. *)
Definition ordered (ci : float * float) : bool := leb (fst ci) (snd ci).

Definition width (ci : float * float) : float := sub (snd ci) (fst ci).

(** The values of [scipy.stats.norm.ppf] at the two arguments the runs
    below reach, 1 - 0.05/2 and 1 - 0.5/2. *)
Definition norm_ppf (p : float) : float :=
  if eqb p 0.975 then 1.959963984540054
  else if eqb p 0.75 then 0.6744897501960817
  else nan.

(** Two large values whose sum overflows. *)
Definition huge_pair : list float := [1e308; 1e308].

(** Two samples around 1e16, where neighbouring floats are 2 apart: both
    have standard deviation sqrt 48. *)
Definition three_draws : list float :=
  [10000000000000000; 10000000000000012; 10000000000000012].

Definition four_draws : list float :=
  [10000000000000000; 10000000000000000; 10000000000000012; 10000000000000012].

(** [alpha] for the levels 0.95 and 0.5. *)
Definition alpha_95 : float := sub 1 0.95.

Definition alpha_50 : float := sub 1 0.5.

Definition scenario_sample : list float := [998; 1002; 997; 1005; 999].

Definition within (lo x hi : float) : bool := leb lo x && leb x hi.

Definition scenario_bounds_agree : bool :=
  let ci := calculate_confidence_interval_of_sample_mean
              norm_ppf scenario_sample alpha_95 in
  within 997.332 (fst ci) 997.334 && within 1003.066 (snd ci) 1003.068.

End f64.

(** ** The notebook on the size of an experiment *)

Section ExperimentSize.

(** [scipy.stats.norm.ppf]. *)
Variable norm_ppf : R -> npfloat.

(** For [p_alt = p_null] the division is by zero; NumPy then gives an
    infinity or NaN, and [NaN] stands for both here.  The properties proved
    of this function take [p_alt <> p_null]. *)
Definition determine_experiment_size (p_null p_alt alpha beta : R) : npfloat :=
  let z_null := norm_ppf (1 - alpha) in
  let z_alt := norm_ppf beta in
  let sd_null := np.sqrt (Fin (p_null * (1 - p_null) + p_null * (1 - p_null))) in
  let sd_alt := np.sqrt (Fin (p_null * (1 - p_null) + p_alt * (1 - p_alt))) in
  let p_diff := p_alt - p_null in
  let n := np.power ((z_null * sd_null - z_alt * sd_alt) / Fin p_diff)%np 2 in
  np.ceil n.

End ExperimentSize.

(** The sample size before rounding up, from the two quantiles. *)
Definition unrounded_size (z_null z_alt p_null p_alt : R) : R :=
  ((z_null * sqrt (p_null * (1 - p_null) + p_null * (1 - p_null))
    - z_alt * sqrt (p_null * (1 - p_null) + p_alt * (1 - p_alt)))
   / (p_alt - p_null)) ^ 2.

(** ** The notebook on precision and recall

    [sklearn.metrics.precision_score] and [recall_score] on binary labels,
    as the notebook's text defines them: TP / (TP + FP) and
    TP / (TP + FN). *)

Module metrics.

(** The cells of the confusion matrix: the pairs (true label, predicted
    label) that [f] selects. *)
Definition count (f : bool -> bool -> bool) (y_true y_pred : list bool) : nat :=
  length (filter (fun ab => f (fst ab) (snd ab)) (combine y_true y_pred)).

Definition true_positives : list bool -> list bool -> nat := count andb.

Definition false_positives : list bool -> list bool -> nat :=
  count (fun a b => negb a && b).

Definition false_negatives : list bool -> list bool -> nat :=
  count (fun a b => a && negb b).

(** A score whose denominator is 0 is 0 (scikit-learn's default, with a
    warning). *)
Definition ratio (num den : nat) : npfloat :=
  if (den =? 0)%nat then Fin 0 else Fin (INR num / INR den).

(** TP / (TP + FP); [ValueError] when the two arrays differ in length. *)
Definition precision_score (y_true y_pred : list bool) : result npfloat :=
  if (length y_true =? length y_pred)%nat then
    Ok (ratio (true_positives y_true y_pred)
              (true_positives y_true y_pred + false_positives y_true y_pred))
  else Raise ValueError.

(** TP / (TP + FN); [ValueError] when the two arrays differ in length. *)
Definition recall_score (y_true y_pred : list bool) : result npfloat :=
  if (length y_true =? length y_pred)%nat then
    Ok (ratio (true_positives y_true y_pred)
              (true_positives y_true y_pred + false_negatives y_true y_pred))
  else Raise ValueError.

End metrics.

(** A list comprehension whose body may raise: the first error ends it. *)
Fixpoint comprehension {A B : Type} (body : A -> result B) (l : list A)
  : result (list B) :=
  match l with
  | [] => Ok []
  | a :: rest =>
      ' b <- body a ;;
      ' bs <- comprehension body rest ;;
      Ok (b :: bs)
  end.

Definition thresholds : list R := np.arange 0 (105 / 100) (5 / 100).

(** The two comprehensions of the cell, over any list of thresholds. *)
Definition precision_scores (ts : list R) (y_test : list bool)
           (preds_proba : list R) : result (list npfloat) :=
  comprehension
    (fun t => metrics.precision_score y_test (np.greater_equal preds_proba t))
    ts.

Definition recall_scores (ts : list R) (y_test : list bool)
           (preds_proba : list R) : result (list npfloat) :=
  comprehension
    (fun t => metrics.recall_score y_test (np.greater_equal preds_proba t))
    ts.

(** The number of positive labels. *)
Definition positives (y_true : list bool) : nat := count_occ bool_dec y_true true.

(** ** Sums of arrays of real numbers *)

Lemma fold_add_reals (xs : list R) (acc : R) :
  fold_left np.add (np.of_reals xs) (Fin acc) = Fin (acc + Rsum xs).
Proof.
  revert acc; induction xs as [|x xs IH]; intros acc; simpl.
  - f_equal; lra.
  - rewrite IH. f_equal. unfold Rsum; simpl. lra.
Qed.

Lemma umr_sum_reals (xs : list R) : np.umr_sum (np.of_reals xs) = Fin (Rsum xs).
Proof.
  unfold np.umr_sum. rewrite fold_add_reals. f_equal; lra.
Qed.

Lemma mean_reals (xs : list R) : np.mean (np.of_reals xs) = arithmetic_mean xs.
Proof.
  unfold np.mean, arithmetic_mean, np.of_reals.
  rewrite length_map. fold (np.of_reals xs). now rewrite umr_sum_reals.
Qed.

Lemma squared_deviations_reals (m : R) (xs : list R) :
  map (fun d => np.multiply d d)
      (map (fun a => np.subtract a (Fin m)) (np.of_reals xs))
  = np.of_reals (map (fun x => (x - m) * (x - m)) xs).
Proof.
  unfold np.of_reals. rewrite !map_map. apply map_ext. reflexivity.
Qed.

Lemma length_pos_INR (xs : list R) : xs <> [] -> INR (length xs) <> 0.
Proof.
  intros H. destruct xs as [|x xs]; [congruence|].
  apply not_0_INR. simpl; lia.
Qed.

Lemma rcount_INR (xs : list R) :
  xs <> [] -> INR (Nat.max (length xs - 1) 0) = INR (length xs) - 1.
Proof.
  intros H. destruct xs as [|x xs]; [congruence|].
  rewrite Nat.max_0_r. simpl length. rewrite Nat.sub_succ, Nat.sub_0_r.
  rewrite S_INR. lra.
Qed.

Lemma arithmetic_mean_nonempty (xs : list R) :
  xs <> [] -> arithmetic_mean xs = Fin (Rsum xs / INR (length xs)).
Proof.
  intros H. unfold arithmetic_mean, np.true_divide.
  destruct (Req_dec_T (INR (length xs)) 0) as [E|_]; [|reflexivity].
  now apply length_pos_INR in H.
Qed.

Lemma std_reals (xs : list R) :
  xs <> [] -> np.std 1 (np.of_reals xs) = bessel_std xs.
Proof.
  intros H. unfold np.std, np.var, bessel_std.
  replace (length (np.of_reals xs)) with (length xs)
    by (unfold np.of_reals; now rewrite length_map).
  rewrite umr_sum_reals. fold (arithmetic_mean xs).
  rewrite (arithmetic_mean_nonempty xs H).
  now rewrite squared_deviations_reals, umr_sum_reals, rcount_INR.
Qed.

Lemma of_reals_length (xs : list R) : length (np.of_reals xs) = length xs.
Proof. unfold np.of_reals. apply length_map. Qed.

(** ** The estimator computes the specified interval *)


(** ** Closed form on samples of two items or more *)

Lemma Rsum_nonneg (xs : list R) : (forall x, In x xs -> 0 <= x) -> 0 <= Rsum xs.
Proof.
  induction xs as [|x xs IH]; intros H; unfold Rsum; simpl; [lra|].
  assert (0 <= x) by (apply H; now left).
  assert (0 <= Rsum xs) by (apply IH; intros y Hy; apply H; now right).
  unfold Rsum in *; lra.
Qed.

Lemma sum_of_squared_deviations_nonneg (m : R) (xs : list R) :
  0 <= sum_of_squared_deviations m xs.
Proof.
  unfold sum_of_squared_deviations. apply Rsum_nonneg.
  intros y Hy. apply in_map_iff in Hy as (x & <- & _).
  pose proof (Rle_0_sqr (x - m)) as Hsq. unfold Rsqr in Hsq. exact Hsq.
Qed.

Lemma two_items_INR (xs : list R) : (2 <= length xs)%nat -> 2 <= INR (length xs).
Proof. intros H. apply le_INR in H. simpl in H. lra. Qed.

Lemma two_items_nonempty (xs : list R) : (2 <= length xs)%nat -> xs <> [].
Proof. destruct xs; simpl; [lia|congruence]. Qed.

Lemma mean_two_items (xs : list R) :
  (2 <= length xs)%nat -> arithmetic_mean xs = Fin (real_mean xs).
Proof. intros H. now apply arithmetic_mean_nonempty, two_items_nonempty. Qed.

Lemma variance_nonneg (xs : list R) :
  (2 <= length xs)%nat ->
  0 <= sum_of_squared_deviations (real_mean xs) xs / (INR (length xs) - 1).
Proof.
  intros H. apply two_items_INR in H.
  apply Rmult_le_pos; [apply sum_of_squared_deviations_nonneg|].
  left. apply Rinv_0_lt_compat. lra.
Qed.

Lemma std_two_items (xs : list R) :
  (2 <= length xs)%nat -> bessel_std xs = Fin (real_std xs).
Proof.
  intros H. unfold bessel_std. rewrite (mean_two_items xs H).
  unfold np.true_divide, np.sqrt, real_std.
  destruct (Req_dec_T (INR (length xs) - 1) 0) as [E|_].
  - apply two_items_INR in H. lra.
  - destruct (Rlt_dec _ 0) as [Hneg|_]; [|reflexivity].
    pose proof (variance_nonneg xs H). lra.
Qed.

Lemma real_std_nonneg (xs : list R) : 0 <= real_std xs.
Proof. apply sqrt_pos. Qed.

Lemma sqrt_count_pos (xs : list R) :
  (2 <= length xs)%nat -> 0 < sqrt (INR (length xs)).
Proof. intros H. apply two_items_INR in H. apply sqrt_lt_R0. lra. Qed.

Lemma sqrt_count (xs : list R) :
  np.sqrt (Fin (INR (length xs))) = Fin (sqrt (INR (length xs))).
Proof.
  unfold np.sqrt. destruct (Rlt_dec _ 0) as [Hneg|_]; [|reflexivity].
  pose proof (pos_INR (length xs)). lra.
Qed.

Lemma margin_two_items (z : R) (xs : list R) :
  (2 <= length xs)%nat ->
  (Fin z * bessel_std xs / np.sqrt (Fin (INR (length xs))))%np
  = Fin (real_margin z xs).
Proof.
  intros H. rewrite (std_two_items xs H), sqrt_count.
  unfold np.multiply, np.true_divide, np.lift2, real_margin.
  destruct (Req_dec_T _ 0) as [E|_]; [|reflexivity].
  pose proof (sqrt_count_pos xs H). lra.
Qed.

Lemma interval_two_items (norm_ppf : R -> npfloat) (xs : list R) (alpha z : R) :
  (2 <= length xs)%nat ->
  norm_ppf (1 - alpha / 2) = Fin z ->
  calculate_confidence_interval_of_sample_mean norm_ppf (np.of_reals xs) alpha
  = (Fin (real_mean xs - real_margin z xs), Fin (real_mean xs + real_margin z xs)).
Proof.
  intros H Hz. unfold calculate_confidence_interval_of_sample_mean.
  rewrite mean_reals, (std_reals xs (two_items_nonempty xs H)), of_reals_length.
  rewrite Hz, (margin_two_items z xs H), (mean_two_items xs H).
  reflexivity.
Qed.

(** ** What the contract of the quantile function gives *)

Section Quantile.

Variable Phi : R -> R.
Variable norm_ppf : R -> npfloat.
Hypothesis contract : normal_quantile Phi norm_ppf.

Lemma Phi_at_zero : Phi 0 = 1 / 2.
Proof.
  pose proof (Phi_symmetric _ _ contract 0) as H.
  rewrite Ropp_0 in H. lra.
Qed.

Lemma Phi_reflects_lt (x y : R) : Phi x < Phi y -> x < y.
Proof.
  intros H. destruct (Rlt_le_dec x y) as [|[Hlt|Heq]]; [assumption| |].
  - pose proof (Phi_increasing _ _ contract y x Hlt). lra.
  - subst. lra.
Qed.

Lemma quantile_value (p : R) :
  0 < p < 1 -> exists z, norm_ppf p = Fin z /\ Phi z = p.
Proof. apply (ppf_inverts _ _ contract). Qed.

Lemma quantile_upper_half (p z : R) :
  1 / 2 < p < 1 -> norm_ppf p = Fin z -> 0 < z.
Proof.
  intros Hp Hz.
  destruct (quantile_value p) as (z' & Hz' & HPhi); [lra|].
  rewrite Hz in Hz'. injection Hz' as <-.
  apply Phi_reflects_lt. rewrite Phi_at_zero, HPhi. lra.
Qed.


Lemma quantile_median (z : R) : norm_ppf (1 / 2) = Fin z -> z = 0.
Proof.
  intros Hz.
  destruct (quantile_value (1 / 2)) as (z' & Hz' & HPhi); [lra|].
  rewrite Hz in Hz'. injection Hz' as <-.
  destruct (Rtotal_order z 0) as [Hlt|[Heq|Hgt]]; [|assumption|].
  - pose proof (Phi_increasing _ _ contract z 0 Hlt). rewrite Phi_at_zero in *. lra.
  - pose proof (Phi_increasing _ _ contract 0 z Hgt). rewrite Phi_at_zero in *. lra.
Qed.

End Quantile.

(** The logistic distribution meets the contract. *)

Lemma logistic_cdf_increasing (x y : R) : x < y -> logistic_cdf x < logistic_cdf y.
Proof.
  intros H. unfold logistic_cdf.
  pose proof (exp_pos (- x)). pose proof (exp_pos (- y)).
  assert (exp (- y) < exp (- x)) by (apply exp_increasing; lra).
  apply Rinv_lt_contravar; [nra|lra].
Qed.

Lemma logistic_cdf_symmetric (x : R) : logistic_cdf (- x) = 1 - logistic_cdf x.
Proof.
  unfold logistic_cdf. rewrite Ropp_involutive, exp_Ropp.
  pose proof (exp_pos x) as He.
  assert (0 < / exp x) by now apply Rinv_0_lt_compat.
  field. split; [lra|]. nra.
Qed.

Lemma logistic_ppf_value (p : R) :
  0 < p < 1 -> logistic_ppf p = Fin (ln (p / (1 - p))).
Proof.
  intros [H0 H1]. unfold logistic_ppf.
  destruct (Rlt_dec 0 p); [|contradiction].
  destruct (Rlt_dec p 1); [reflexivity|contradiction].
Qed.

Lemma logistic_ppf_inverts (p : R) :
  0 < p < 1 -> exists z, logistic_ppf p = Fin z /\ logistic_cdf z = p.
Proof.
  intros Hp. exists (ln (p / (1 - p))). split; [now apply logistic_ppf_value|].
  unfold logistic_cdf. rewrite exp_Ropp, exp_ln.
  - field. lra.
  - apply Rdiv_lt_0_compat; lra.
Qed.

Lemma logistic_meets_contract : normal_quantile logistic_cdf logistic_ppf.
Proof.
  constructor.
  - exact logistic_cdf_increasing.
  - exact logistic_cdf_symmetric.
  - exact logistic_ppf_inverts.
Qed.

(** ** Order of the bounds *)





Lemma real_margin_nonneg (z : R) (xs : list R) :
  (2 <= length xs)%nat -> 0 <= z -> 0 <= real_margin z xs.
Proof.
  intros H Hz. unfold real_margin.
  pose proof (real_std_nonneg xs). pose proof (sqrt_count_pos xs H).
  apply Rmult_le_pos; [nra|]. left. now apply Rinv_0_lt_compat.
Qed.


Section Order.

Variable Phi : R -> R.
Variable norm_ppf : R -> npfloat.
Hypothesis contract : normal_quantile Phi norm_ppf.

Lemma critical_value_nonneg (alpha : R) :
  0 < alpha <= 1 -> exists z, norm_ppf (1 - alpha / 2) = Fin z /\ 0 <= z.
Proof.
  intros Ha.
  destruct (quantile_value Phi norm_ppf contract (1 - alpha / 2)) as (z & Hz & _);
    [lra|].
  exists z. split; [assumption|].
  destruct (Req_dec_T alpha 1) as [->|Hne].
  - replace (1 - 1 / 2) with (1 / 2) in Hz by lra.
    rewrite (quantile_median Phi norm_ppf contract z Hz). lra.
  - left. apply (quantile_upper_half Phi norm_ppf contract (1 - alpha / 2)); [lra|].
    assumption.
Qed.


Lemma interval_ordered (xs : list R) (alpha : R) :
  (2 <= length xs)%nat ->
  0 < alpha <= 1 ->
  exists lb ub,
    calculate_confidence_interval_of_sample_mean norm_ppf (np.of_reals xs) alpha
    = (Fin lb, Fin ub) /\ lb <= ub.
Proof.
  intros H Ha. destruct (critical_value_nonneg alpha Ha) as (z & Hz & Hpos).
  exists (real_mean xs - real_margin z xs), (real_mean xs + real_margin z xs).
  split; [now apply interval_two_items|].
  pose proof (real_margin_nonneg z xs H Hpos). lra.
Qed.


End Order.

(** ** The trial *)

Lemma advance_advance (m n : nat) (g : np.RandomState) :
  np.advance n (np.advance m g) = np.advance (m + n) g.
Proof. unfold np.advance; simpl. f_equal. lia. Qed.

Lemma advance_0 (g : np.RandomState) : np.advance 0 g = g.
Proof. destruct g as [d p]. unfold np.advance; simpl. f_equal. lia. Qed.

Lemma random_normal_runs_sized (loc scale : R) (size : Z) (g : np.RandomState) :
  0 <= scale -> (0 <= size)%Z ->
  np.random_normal loc scale size g
  = Ok (trial_sample loc scale (Z.to_nat size) g 0,
        np.advance (Z.to_nat size) g).
Proof.
  intros H Hsize. unfold np.random_normal, trial_sample.
  destruct (Rlt_dec scale 0) as [Hneg|_]; [lra|].
  destruct (Z.ltb_spec size 0) as [Hlt|_]; [lia|].
  change (0 * Z.to_nat size)%nat with 0%nat. now rewrite advance_0.
Qed.

Lemma random_normal_runs (loc scale : R) (size : nat) (g : np.RandomState) :
  0 <= scale ->
  np.random_normal loc scale (Z.of_nat size) g
  = Ok (trial_sample loc scale size g 0, np.advance size g).
Proof.
  intros H. rewrite random_normal_runs_sized by (assumption || lia).
  now rewrite Nat2Z.id.
Qed.

Lemma random_normal_raises (loc scale : R) (size : Z) (g : np.RandomState) :
  scale < 0 \/ (size < 0)%Z ->
  np.random_normal loc scale size g = Raise ValueError.
Proof.
  intros H. unfold np.random_normal.
  destruct (Rlt_dec scale 0) as [_|Hpos]; [reflexivity|].
  destruct (Z.ltb_spec size 0) as [_|Hsize]; [reflexivity|].
  destruct H as [H|H]; [contradiction|lia].
Qed.

Lemma run_trial_runs_sized (norm_ppf : R -> npfloat) (mu sigma : R) (N : Z)
      (confidence_level : R) (g : np.RandomState) :
  0 <= sigma -> (0 <= N)%Z ->
  run_trial norm_ppf mu sigma N confidence_level g
  = Ok (calculate_confidence_interval_of_sample_mean
          norm_ppf (trial_sample mu sigma (Z.to_nat N) g 0)
          (1 - confidence_level),
        np.advance (Z.to_nat N) g).
Proof.
  intros H HN. unfold run_trial. now rewrite random_normal_runs_sized.
Qed.

Lemma run_trial_runs (norm_ppf : R -> npfloat) (mu sigma : R) (N : nat)
      (confidence_level : R) (g : np.RandomState) :
  0 <= sigma ->
  run_trial norm_ppf mu sigma (Z.of_nat N) confidence_level g
  = Ok (calculate_confidence_interval_of_sample_mean
          norm_ppf (trial_sample mu sigma N g 0) (1 - confidence_level),
        np.advance N g).
Proof.
  intros H. unfold run_trial. now rewrite random_normal_runs.
Qed.

Lemma run_trial_raises (norm_ppf : R -> npfloat) (mu sigma : R) (N : Z)
      (confidence_level : R) (g : np.RandomState) :
  sigma < 0 \/ (N < 0)%Z ->
  run_trial norm_ppf mu sigma N confidence_level g = Raise ValueError.
Proof.
  intros H. unfold run_trial. now rewrite random_normal_raises.
Qed.

Lemma trial_sample_reals (mu sigma : R) (N : nat) (g : np.RandomState) (i : nat) :
  exists xs, trial_sample mu sigma N g i = np.of_reals xs /\ length xs = N.
Proof.
  exists (map (fun d => mu + sigma * d)
              (np.standard_normal N (np.advance (i * N) g))).
  split; [reflexivity|].
  unfold np.standard_normal. now rewrite !length_map, length_seq.
Qed.

(** C3, as stated, fails on binary64 numbers: at level 0.95 the sample
    [1e308, 1e308] has an infinite sum, the standard deviation is infinite,
    and the estimator returns (nan, inf), for which [ci_lb <= ci_ub] is
    False. *)
Lemma overflow_breaks_the_order :
  f64.calculate_confidence_interval_of_sample_mean
    f64.norm_ppf f64.huge_pair f64.alpha_95
  = (PrimFloat.nan, PrimFloat.infinity)
  /\ f64.ordered
       (f64.calculate_confidence_interval_of_sample_mean
          f64.norm_ppf f64.huge_pair f64.alpha_95)
     = false.
Proof. vm_compute. split; reflexivity. Qed.

(** C3, amended.  On every valid input (two items or more, confidence level
    in (0,1)), whenever the two bounds are finite numbers the interval has
    lower <= upper: for the estimator on any sample of real numbers, and for
    a trial that draws its sample. *)
Theorem run_trial_lower_le_upper
        (Phi : R -> R) (norm_ppf : R -> npfloat) (confidence_level : R) :
  normal_quantile Phi norm_ppf ->
  0 < confidence_level < 1 ->
  (forall xs lb ub,
     (2 <= length xs)%nat ->
     calculate_confidence_interval_of_sample_mean
       norm_ppf (np.of_reals xs) (1 - confidence_level) = (Fin lb, Fin ub) ->
     lb <= ub)
  /\
  (forall mu sigma N g lb ub g',
     (2 <= N)%Z ->
     run_trial norm_ppf mu sigma N confidence_level g
     = Ok ((Fin lb, Fin ub), g') ->
     lb <= ub).
Proof.
  intros contract Hcl.
  assert (Hestimator : forall xs lb ub,
             (2 <= length xs)%nat ->
             calculate_confidence_interval_of_sample_mean
               norm_ppf (np.of_reals xs) (1 - confidence_level)
             = (Fin lb, Fin ub) ->
             lb <= ub).
  { intros xs lb ub H E.
    destruct (interval_ordered Phi norm_ppf contract xs (1 - confidence_level) H)
      as (lb' & ub' & E' & Hle); [lra|].
    rewrite E' in E. injection E as <- <-. exact Hle. }
  split; [exact Hestimator|].
  intros mu sigma N g lb ub g' HN E.
  destruct (Rlt_le_dec sigma 0) as [Hneg|Hpos].
  - rewrite run_trial_raises in E by now left. discriminate.
  - rewrite run_trial_runs_sized in E by (assumption || lia).
    destruct (trial_sample_reals mu sigma (Z.to_nat N) g 0) as (xs & Exs & Hlen).
    rewrite Exs in E.
    apply (Hestimator xs lb ub); [lia|congruence].
Qed.


(** ** Width of the interval *)

Lemma width_two_items (norm_ppf : R -> npfloat) (xs : list R) (alpha z : R) :
  (2 <= length xs)%nat ->
  norm_ppf (1 - alpha / 2) = Fin z ->
  width (calculate_confidence_interval_of_sample_mean norm_ppf (np.of_reals xs) alpha)
  = Fin (2 * z * real_std xs / sqrt (INR (length xs))).
Proof.
  intros H Hz. rewrite (interval_two_items norm_ppf xs alpha z H Hz).
  unfold width, real_margin; simpl. f_equal. unfold Rdiv. ring.
Qed.

Lemma real_mean_pair (c : R) : real_mean [c; c] = c.
Proof. unfold real_mean, Rsum; simpl. field. Qed.

Lemma real_std_pair (c : R) : real_std [c; c] = 0.
Proof.
  unfold real_std. rewrite real_mean_pair.
  unfold sum_of_squared_deviations, Rsum; simpl.
  transitivity (sqrt 0); [f_equal; field|apply sqrt_0].
Qed.

Lemma real_std_triple_of_fives : real_std [5; 5; 5] = 0.
Proof.
  unfold real_std, real_mean, sum_of_squared_deviations, Rsum; simpl.
  transitivity (sqrt 0); [f_equal; field|apply sqrt_0].
Qed.

(** C6, as stated, fails: the samples [5; 5] and [5; 5; 5] have the same
    standard deviation, 0, and lengths 2 < 3, yet both intervals have width
    0, whatever quantile function meets the contract. *)
Lemma width_not_strictly_decreasing :
  ~ (exists Phi norm_ppf,
        normal_quantile Phi norm_ppf /\ width_strictly_decreasing norm_ppf).
Proof.
  intros (Phi & norm_ppf & contract & H).
  destruct (quantile_value Phi norm_ppf contract (1 - (1 - 1 / 2) / 2))
    as (z & Hz & _); [lra|].
  destruct (H [5; 5] [5; 5; 5] (1 / 2)) as (w1 & w2 & E1 & E2 & Hlt).
  - lra.
  - simpl; lia.
  - simpl; lia.
  - rewrite !std_two_items by (simpl; lia).
    now rewrite (real_std_pair 5), real_std_triple_of_fives.
  - rewrite (width_two_items norm_ppf [5; 5] _ z) in E1 by (simpl; lia || exact Hz).
    rewrite (width_two_items norm_ppf [5; 5; 5] _ z) in E2
      by (simpl; lia || exact Hz).
    rewrite (real_std_pair 5) in E1. rewrite real_std_triple_of_fives in E2.
    injection E1 as <-. injection E2 as <-.
    unfold Rdiv in Hlt. rewrite !Rmult_0_r, !Rmult_0_l in Hlt. lra.
Qed.

Lemma zero_std_is_real_zero (xs : list R) :
  np.std 1 (np.of_reals xs) = Fin 0 -> (2 <= length xs)%nat /\ real_std xs = 0.
Proof.
  intros H. destruct (le_lt_dec 2 (length xs)) as [Hlen|Hlen].
  - split; [assumption|].
    rewrite std_reals, (std_two_items xs Hlen) in H
      by now apply two_items_nonempty.
    now injection H.
  - exfalso. destruct xs as [|x [|y xs]]; [| |simpl in Hlen; lia].
    + unfold np.std, np.var, np.umr_sum, np.true_divide in H; simpl in H.
      destruct (Req_dec_T 0 0) as [_|Hne]; [discriminate|now elim Hne].
    + rewrite std_reals in H by discriminate.
      unfold bessel_std in H. rewrite arithmetic_mean_nonempty in H by discriminate.
      unfold np.true_divide in H; simpl in H.
      destruct (Req_dec_T (1 - 1) 0) as [_|Hne]; [discriminate|elim Hne; lra].
Qed.

(** C6, amended.  The two bounds are the sample mean minus and plus the
    margin critical_value * sample_std / sqrt(sample_size), in the
    arithmetic of the code.  When the sample standard deviation is 0 and the
    critical value is a finite number, the interval is the single point
    [sample_mean, sample_mean] and its width is 0, at every sample size; so
    the width is not strictly decreasing in the sample size.  With a
    positive standard deviation it need not decrease either, in binary64:
    the samples [1e16, 1e16+12, 1e16+12] and [1e16, 1e16, 1e16+12, 1e16+12]
    have the same standard deviation, and at level 0.5 both widths are
    4. *)
Theorem width_from_margin (norm_ppf : R -> npfloat) :
  (forall sample alpha,
      calculate_confidence_interval_of_sample_mean norm_ppf sample alpha
      = ((np.mean sample
          - norm_ppf (1 - alpha / 2)%R * np.std 1 sample
            / np.sqrt (Fin (INR (length sample))))%np,
         (np.mean sample
          + norm_ppf (1 - alpha / 2)%R * np.std 1 sample
            / np.sqrt (Fin (INR (length sample))))%np))
  /\
  (forall xs alpha z,
      np.std 1 (np.of_reals xs) = Fin 0 ->
      norm_ppf (1 - alpha / 2) = Fin z ->
      exists m,
        np.mean (np.of_reals xs) = Fin m /\
        calculate_confidence_interval_of_sample_mean norm_ppf (np.of_reals xs) alpha
        = (Fin m, Fin m) /\
        width (calculate_confidence_interval_of_sample_mean
                 norm_ppf (np.of_reals xs) alpha) = Fin 0)
  /\
  (f64.std 1 f64.three_draws = f64.std 1 f64.four_draws /\
   PrimFloat.ltb PrimFloat.zero (f64.std 1 f64.three_draws) = true /\
   f64.width (f64.calculate_confidence_interval_of_sample_mean
                f64.norm_ppf f64.three_draws f64.alpha_50)
   = f64.of_count 4 /\
   f64.width (f64.calculate_confidence_interval_of_sample_mean
                f64.norm_ppf f64.four_draws f64.alpha_50)
   = f64.of_count 4).
Proof.
  split; [reflexivity|]. split.
  - intros xs alpha z Hstd Hz.
    destruct (zero_std_is_real_zero xs Hstd) as [Hlen Hzero].
    exists (real_mean xs).
    assert (E : calculate_confidence_interval_of_sample_mean
                  norm_ppf (np.of_reals xs) alpha
                = (Fin (real_mean xs), Fin (real_mean xs))).
    { rewrite (interval_two_items norm_ppf xs alpha z Hlen Hz).
      unfold real_margin. rewrite Hzero. do 2 f_equal; unfold Rdiv; ring. }
    split; [now rewrite mean_reals, mean_two_items|].
    split; [exact E|].
    rewrite E. unfold width; simpl. f_equal. ring.
  - vm_compute. repeat split; reflexivity.
Qed.

(** ** Errors *)

Lemma estimator_fewer_than_two_items
      (norm_ppf : R -> npfloat) (xs : list R) (alpha : R) :
  (length xs < 2)%nat ->
  calculate_confidence_interval_of_sample_mean norm_ppf (np.of_reals xs) alpha
  = (NaN, NaN).
Proof.
  intros H. destruct xs as [|x [|y xs]]; [| |simpl in H; lia].
  - unfold calculate_confidence_interval_of_sample_mean, np.mean, np.umr_sum,
      np.true_divide; simpl.
    destruct (Req_dec_T 0 0) as [_|Hne]; [reflexivity|now elim Hne].
  - unfold calculate_confidence_interval_of_sample_mean.
    rewrite std_reals by discriminate.
    assert (Hstd : bessel_std [x] = NaN).
    { unfold bessel_std. rewrite arithmetic_mean_nonempty by discriminate.
      unfold np.true_divide; simpl.
      destruct (Req_dec_T (1 - 1) 0) as [_|Hne]; [reflexivity|elim Hne; lra]. }
    rewrite Hstd.
    destruct (norm_ppf (1 - alpha / 2)), (np.mean (np.of_reals [x])); reflexivity.
Qed.

Lemma run_trial_fewer_than_two_items
      (norm_ppf : R -> npfloat) (mu sigma : R) (N : Z) (confidence_level : R)
      (g : np.RandomState) :
  0 <= sigma -> (0 <= N < 2)%Z ->
  run_trial norm_ppf mu sigma N confidence_level g
  = Ok ((NaN, NaN), np.advance (Z.to_nat N) g).
Proof.
  intros Hsigma HN. rewrite run_trial_runs_sized by (assumption || lia).
  destruct (trial_sample_reals mu sigma (Z.to_nat N) g 0) as (xs & -> & Hlen).
  rewrite estimator_fewer_than_two_items by lia. reflexivity.
Qed.

(** C2, as stated, fails: with sample_size 1 (and the cell's mean and
    standard deviation, confidence level 0.95, a generator of zeros) the trial
    raises nothing, whatever the quantile function. *)
Lemma sample_size_one_raises_nothing :
  ~ (exists norm_ppf,
        raises_iff_invalid norm_ppf cell.mu cell.sigma 1 (95 / 100) zeros).
Proof.
  intros (norm_ppf & _ & H).
  destruct H as [e He]; [left; lia|].
  rewrite run_trial_fewer_than_two_items in He
    by (unfold cell.sigma; lra || lia).
  discriminate.
Qed.

(** C2, amended.  Neither the sample size nor the confidence level is
    checked.  A trial raises [ValueError], from the sampler, when the
    standard deviation or the sample size is negative.  With a positive
    standard deviation and a sample size of 0 or more it raises nothing
    (the sample is taken to fit in memory), whatever the confidence level,
    and returns the estimator's pair for the sample drawn; for a sample size
    of 0 or 1 that pair is (NaN, NaN).  With
    no trial at all the coverage is NaN, returned without error; and with a
    negative standard deviation and one trial or more the error of the first
    trial is the whole result. *)
Theorem run_trial_raises_only_from_sampler
        (norm_ppf : R -> npfloat) (mu sigma : R) (N : Z) (confidence_level : R)
        (sample_size num_trials : nat) (g : np.RandomState) :
  (sigma < 0 \/ (N < 0)%Z ->
   run_trial norm_ppf mu sigma N confidence_level g = Raise ValueError)
  /\ (0 < sigma -> (0 <= N)%Z ->
      run_trial norm_ppf mu sigma N confidence_level g
      = Ok (calculate_confidence_interval_of_sample_mean
              norm_ppf (trial_sample mu sigma (Z.to_nat N) g 0)
              (1 - confidence_level),
            np.advance (Z.to_nat N) g))
  /\ (0 < sigma -> (0 <= N < 2)%Z ->
      run_trial norm_ppf mu sigma N confidence_level g
      = Ok ((NaN, NaN), np.advance (Z.to_nat N) g))
  /\ estimate_coverage norm_ppf mu sigma sample_size confidence_level 0 g
     = Ok (NaN, g)
  /\ (sigma < 0 -> (1 <= num_trials)%nat ->
      estimate_coverage norm_ppf mu sigma sample_size confidence_level
                        num_trials g
      = Raise ValueError).
Proof.
  split; [apply run_trial_raises|].
  split; [intros Hsigma HN; apply run_trial_runs_sized; (lra || assumption)|].
  split; [intros Hsigma HN; apply run_trial_fewer_than_two_items;
          (lra || assumption)|].
  split.
  - unfold estimate_coverage, np.mean, np.umr_sum, np.true_divide; simpl.
    destruct (Req_dec_T 0 0) as [_|Hne]; [reflexivity|now elim Hne].
  - intros Hsigma Hn. destruct num_trials as [|k]; [lia|].
    unfold estimate_coverage; simpl.
    rewrite run_trial_raises by now left. reflexivity.
Qed.

(** ** The coverage loop *)

Lemma trial_sample_advance (mu sigma : R) (N : nat) (g : np.RandomState) (i : nat) :
  trial_sample mu sigma N (np.advance N g) i = trial_sample mu sigma N g (S i).
Proof.
  unfold trial_sample. rewrite advance_advance. reflexivity.
Qed.

Section Loop.

Variable norm_ppf : R -> npfloat.
Variables (mu sigma : R) (N : nat) (confidence_level : R).
Hypothesis sigma_nonneg : 0 <= sigma.

Lemma recorded_outcome_advance (g : np.RandomState) (i : nat) :
  recorded_outcome norm_ppf mu sigma N confidence_level (np.advance N g) i
  = recorded_outcome norm_ppf mu sigma N confidence_level g (S i).
Proof. unfold recorded_outcome. now rewrite trial_sample_advance. Qed.

Lemma coverage_loop_appends (num_trials : nat) :
  forall (recorded : list bool) (g : np.RandomState),
    coverage_loop norm_ppf mu sigma N confidence_level num_trials recorded g
    = Ok (recorded
            ++ map (recorded_outcome norm_ppf mu sigma N confidence_level g)
                   (seq 0 num_trials),
          np.advance (num_trials * N) g).
Proof.
  induction num_trials as [|k IH]; intros recorded g.
  - simpl. now rewrite app_nil_r, advance_0.
  - cbn [coverage_loop]. rewrite run_trial_runs by assumption. cbn [bind].
    rewrite IH, advance_advance, <- app_assoc.
    rewrite (map_ext _ _ (recorded_outcome_advance g)).
    rewrite <- (map_map S), seq_shift. reflexivity.
Qed.

Lemma coverage_loop_outcomes (num_trials : nat) (g : np.RandomState) :
  coverage_loop norm_ppf mu sigma N confidence_level num_trials [] g
  = Ok (map (recorded_outcome norm_ppf mu sigma N confidence_level g)
            (seq 0 num_trials),
        np.advance (num_trials * N) g).
Proof. now rewrite coverage_loop_appends. Qed.

Lemma estimate_coverage_mean (num_trials : nat) (g : np.RandomState) :
  estimate_coverage norm_ppf mu sigma N confidence_level num_trials g
  = Ok (np.mean
          (map np.of_bool
               (map (recorded_outcome norm_ppf mu sigma N confidence_level g)
                    (seq 0 num_trials))),
        np.advance (num_trials * N) g).
Proof. unfold estimate_coverage. now rewrite coverage_loop_outcomes. Qed.

End Loop.

Lemma ci_contains_holds (ci : npfloat * npfloat) (mu : R) :
  ci_contains ci mu = true <-> holds ci mu.
Proof.
  unfold ci_contains, holds. destruct ci as [[lb|] [ub|]]; simpl.
  - destruct (Rle_dec lb mu) as [Hl|Hl], (Rle_dec mu ub) as [Hu|Hu]; simpl;
      split; intros H; try discriminate; try (now exists lb, ub);
      destruct H as (lb' & ub' & E & H1 & H2); injection E as <- <-; tauto.
  - rewrite andb_false_r.
    split; [discriminate|]. intros (lb' & ub' & E & _). discriminate.
  - split; [discriminate|]. intros (lb' & ub' & E & _). discriminate.
  - split; [discriminate|]. intros (lb' & ub' & E & _). discriminate.
Qed.

Lemma fold_add_bools (outcomes : list bool) (acc : R) :
  fold_left np.add (map np.of_bool outcomes) (Fin acc)
  = Fin (acc + INR (covering outcomes)).
Proof.
  revert acc. induction outcomes as [|b l IH]; intros acc.
  - simpl. f_equal. lra.
  - cbn [map fold_left].
    change (np.add (Fin acc) (np.of_bool b))
      with (Fin (acc + (if b then 1 else 0))).
    rewrite IH. f_equal. unfold covering.
    destruct b; cbn [count_occ];
      destruct (bool_dec _ _) as [E|E]; try discriminate; try (now elim E).
    + rewrite S_INR. lra.
    + lra.
Qed.

Lemma mean_of_bools (outcomes : list bool) :
  outcomes <> [] ->
  np.mean (map np.of_bool outcomes)
  = Fin (INR (covering outcomes) / INR (length outcomes)).
Proof.
  intros H. unfold np.mean, np.umr_sum. rewrite fold_add_bools, length_map.
  unfold np.true_divide.
  destruct (Req_dec_T (INR (length outcomes)) 0) as [E|_].
  - destruct outcomes; [congruence|].
    apply (INR_eq _ 0%nat) in E. discriminate.
  - f_equal. lra.
Qed.

Lemma covering_fraction_bounds (outcomes : list bool) :
  outcomes <> [] ->
  0 <= INR (covering outcomes) / INR (length outcomes) <= 1.
Proof.
  intros H.
  assert (Hlen : 0 < INR (length outcomes)).
  { destruct outcomes; [congruence|]. apply lt_0_INR. simpl; lia. }
  assert (Hle : INR (covering outcomes) <= INR (length outcomes))
    by (apply le_INR, count_occ_bound).
  pose proof (pos_INR (covering outcomes)) as Hpos.
  split.
  - apply Rmult_le_pos; [assumption|]. left. now apply Rinv_0_lt_compat.
  - apply Rmult_le_reg_r with (INR (length outcomes)); [assumption|].
    unfold Rdiv. rewrite Rmult_assoc, Rinv_l by lra. lra.
Qed.

Lemma nth_map_seq (f : nat -> bool) (n i : nat) :
  (i < n)%nat -> nth i (map f (seq 0 n)) false = f i.
Proof.
  intros H. rewrite (nth_indep _ false (f 0%nat)) by now rewrite length_map, length_seq.
  rewrite map_nth, seq_nth by assumption. reflexivity.
Qed.

(** C4.  With a standard deviation the sampler accepts and one trial or
    more, the cell runs [num_trials] trials, each on its own [N] deviates of
    the generator; the outcome recorded for trial [i] is true exactly when
    the interval of that trial has real bounds with
    lower <= true_mean <= upper; and the number returned is the count of true
    outcomes over [num_trials], a real number between 0 and 1. *)
Theorem estimate_coverage_is_covering_fraction
        (norm_ppf : R -> npfloat) (mu sigma : R) (N : nat) (confidence_level : R)
        (num_trials : nat) (g : np.RandomState) :
  0 <= sigma ->
  (1 <= num_trials)%nat ->
  exists outcomes,
    coverage_loop norm_ppf mu sigma N confidence_level num_trials [] g
    = Ok (outcomes, np.advance (num_trials * N) g) /\
    length outcomes = num_trials /\
    (forall i, (i < num_trials)%nat ->
       nth i outcomes false = true <->
       holds (calculate_confidence_interval_of_sample_mean
                norm_ppf (trial_sample mu sigma N g i) (1 - confidence_level))
             mu) /\
    estimate_coverage norm_ppf mu sigma N confidence_level num_trials g
    = Ok (Fin (INR (covering outcomes) / INR num_trials),
          np.advance (num_trials * N) g) /\
    0 <= INR (covering outcomes) / INR num_trials <= 1.
Proof.
  intros Hsigma Hn.
  set (outcomes :=
         map (recorded_outcome norm_ppf mu sigma N confidence_level g)
             (seq 0 num_trials)).
  assert (Hlen : length outcomes = num_trials)
    by (unfold outcomes; now rewrite length_map, length_seq).
  assert (Hne : outcomes <> [])
    by (intros E; rewrite E in Hlen; simpl in Hlen; lia).
  exists outcomes. split; [|split; [|split; [|split]]].
  - now apply coverage_loop_outcomes.
  - exact Hlen.
  - intros i Hi. unfold outcomes. rewrite nth_map_seq by assumption.
    unfold recorded_outcome, trial_outcome. apply ci_contains_holds.
  - rewrite estimate_coverage_mean by assumption.
    fold outcomes. rewrite (mean_of_bools outcomes Hne), Hlen. reflexivity.
  - rewrite <- Hlen. now apply covering_fraction_bounds.
Qed.

(** ** Order of the trials *)

Lemma covering_permutation (l1 l2 : list bool) :
  Permutation l1 l2 -> covering l1 = covering l2.
Proof.
  intros H. unfold covering.
  now apply (proj1 (Permutation_count_occ bool_dec l1 l2)).
Qed.

Lemma mean_of_bools_permutation (l1 l2 : list bool) :
  Permutation l1 l2 ->
  np.mean (map np.of_bool l1) = np.mean (map np.of_bool l2).
Proof.
  intros H. unfold np.mean, np.umr_sum.
  rewrite !fold_add_bools, !length_map.
  now rewrite (covering_permutation l1 l2 H), (Permutation_length H).
Qed.

(** C9.  The number the cell returns does not depend on the order of the
    trials.  It is the mean of the outcomes, each computed from the sample
    of its own trial alone; permuting the recorded outcomes, or the samples
    they are computed from, leaves it unchanged. *)
Theorem coverage_is_order_independent
        (norm_ppf : R -> npfloat) (mu confidence_level : R) :
  (forall l1 l2 : list bool,
      Permutation l1 l2 ->
      np.mean (map np.of_bool l1) = np.mean (map np.of_bool l2))
  /\
  (forall samples1 samples2 : list np.ndarray,
      Permutation samples1 samples2 ->
      np.mean (map np.of_bool
                   (map (trial_outcome norm_ppf mu confidence_level) samples1))
      = np.mean (map np.of_bool
                     (map (trial_outcome norm_ppf mu confidence_level) samples2)))
  /\
  (forall sigma N num_trials g,
      0 <= sigma ->
      estimate_coverage norm_ppf mu sigma N confidence_level num_trials g
      = Ok (np.mean (map np.of_bool
                         (map (trial_outcome norm_ppf mu confidence_level)
                              (map (trial_sample mu sigma N g) (seq 0 num_trials)))),
            np.advance (num_trials * N) g)).
Proof.
  split; [exact mean_of_bools_permutation|]. split.
  - intros samples1 samples2 H.
    apply mean_of_bools_permutation. now apply Permutation_map.
  - intros sigma N num_trials g Hsigma.
    rewrite estimate_coverage_mean by assumption.
    now rewrite (map_map (trial_sample mu sigma N g)).
Qed.

(** ** The worked scenario *)

Lemma fixed_sample_mean : real_mean fixed_sample = 10002 / 10.
Proof. unfold real_mean, fixed_sample, Rsum; simpl. field. Qed.

Lemma fixed_sample_std : real_std fixed_sample = sqrt (107 / 10).
Proof.
  unfold real_std. rewrite fixed_sample_mean.
  unfold sum_of_squared_deviations, fixed_sample, Rsum; simpl.
  f_equal. field.
Qed.

Lemma sqrt_between (x lo hi : R) :
  0 <= lo -> 0 <= hi -> lo * lo < x < hi * hi -> lo < sqrt x < hi.
Proof.
  intros Hlo Hhi [H1 H2]. split.
  - rewrite <- (sqrt_square lo Hlo). apply sqrt_lt_1_alt. split; [nra|assumption].
  - rewrite <- (sqrt_square hi Hhi). apply sqrt_lt_1_alt. split; [nra|assumption].
Qed.

Lemma fixed_sample_std_bounds :
  32710 / 10000 < real_std fixed_sample < 32711 / 10000.
Proof. rewrite fixed_sample_std. apply sqrt_between; lra. Qed.

Lemma sqrt_5_bounds : 223606 / 100000 < sqrt 5 < 223607 / 100000.
Proof. apply sqrt_between; lra. Qed.

Lemma fixed_sample_count : INR (length fixed_sample) = 5.
Proof. simpl. lra. Qed.

Lemma fixed_sample_margin_bounds (z : R) :
  195995 / 100000 <= z <= 195997 / 100000 ->
  28670 / 10000 < real_margin z fixed_sample < 28673 / 10000.
Proof.
  intros Hz. unfold real_margin. rewrite fixed_sample_count.
  pose proof fixed_sample_std_bounds as Hs. pose proof sqrt_5_bounds as Hq.
  set (s := real_std fixed_sample) in *. set (q := sqrt 5) in *.
  assert (Hqi : q * / q = 1) by (apply Rinv_r; lra).
  set (iq := / q) in *.
  assert (Hiq : 44721 / 100000 < iq < 44722 / 100000) by (split; nra).
  assert (Hzs : 64109 / 10000 < z * s < 64113 / 10000) by (split; nra).
  replace (z * s / q) with (z * s * iq) by reflexivity.
  set (p := z * s) in *.
  split; nra.
Qed.

Lemma fixed_sample_np_mean :
  np.mean (np.of_reals fixed_sample) = Fin (10002 / 10).
Proof.
  rewrite mean_reals, mean_two_items by (simpl; lia).
  now rewrite fixed_sample_mean.
Qed.

Lemma fixed_sample_np_std :
  np.std 1 (np.of_reals fixed_sample) = Fin (real_std fixed_sample).
Proof.
  rewrite std_reals by discriminate. apply std_two_items. simpl; lia.
Qed.

Lemma approx_between (tolerance x v : R) :
  approx tolerance x v <-> v - tolerance <= x <= v + tolerance.
Proof.
  unfold approx, Rabs. destruct (Rcase_abs (x - v)); split; intros H; lra.
Qed.

(** C5, as stated, fails: the Bessel-corrected standard deviation of the
    sample is sqrt(10.7), above 3.27, so it is not 3.194 to within 0.01;
    no quantile function makes the scenario come out with the stated
    numbers. *)
Lemma scenario_not_as_stated :
  ~ (exists norm_ppf,
        scenario norm_ppf (1 / 100) (10002 / 10) (3194 / 1000) (2797 / 1000)
                 (99740 / 100) (1002997 / 1000)).
Proof.
  intros (norm_ppf & z & s & m & lb & ub & _ & _ & _ & Hs & Hnear & _).
  rewrite fixed_sample_np_std in Hs. injection Hs as <-.
  apply approx_between in Hnear.
  pose proof fixed_sample_std_bounds. lra.
Qed.

(** C5, amended.  For the sample [998, 1002, 997, 1005, 999] and confidence
    level 0.95, with a quantile function that returns 1.95996 (to five
    decimals) at 0.975: the mean is 1000.2, the Bessel-corrected standard
    deviation is about 3.271, the margin about 2.867 and the interval about
    [997.333, 1003.067], each to within 0.001. *)
Theorem scenario_computed (norm_ppf : R -> npfloat) (z : R) :
  norm_ppf (1 - (1 - 95 / 100) / 2) = Fin z ->
  approx (1 / 100000) z (195996 / 100000) ->
  scenario norm_ppf (1 / 1000) (10002 / 10) (3271 / 1000) (2867 / 1000)
           (997333 / 1000) (1003067 / 1000).
Proof.
  intros Hz Hnear. apply approx_between in Hnear.
  pose proof fixed_sample_std_bounds as Hs.
  assert (Hm : 28670 / 10000 < real_margin z fixed_sample < 28673 / 10000)
    by (apply fixed_sample_margin_bounds; lra).
  exists z, (real_std fixed_sample), (real_margin z fixed_sample),
    (real_mean fixed_sample - real_margin z fixed_sample),
    (real_mean fixed_sample + real_margin z fixed_sample).
  split; [exact Hz|].
  split; [apply approx_between; lra|].
  split; [exact fixed_sample_np_mean|].
  split; [exact fixed_sample_np_std|].
  split; [apply approx_between; lra|].
  split.
  { rewrite <- (margin_two_items z fixed_sample) by (simpl; lia).
    rewrite std_two_items by (simpl; lia). reflexivity. }
  split; [apply approx_between; lra|].
  split; [apply interval_two_items; [simpl; lia|exact Hz]|].
  rewrite fixed_sample_mean.
  split; apply approx_between; lra.
Qed.

(** ** Runs on binary64 numbers *)

(** The worked scenario on binary64 numbers: the bounds are within 0.001 of
    997.333 and 1003.067. *)
Example scenario_on_binary64 : f64.scenario_bounds_agree = true.
Proof. vm_compute. reflexivity. Qed.

(** A sample of one item on binary64 numbers: both bounds are NaN. *)
Example one_item_on_binary64 :
  f64.calculate_confidence_interval_of_sample_mean
    f64.norm_ppf (firstn 1 f64.scenario_sample) f64.alpha_95
  = (PrimFloat.nan, PrimFloat.nan).
Proof. vm_compute. reflexivity. Qed.

(** ** Runs on small inputs *)

Example estimator_on_1_3 (alpha : R) :
  calculate_confidence_interval_of_sample_mean
    (fun _ => Fin 2) (np.of_reals [1; 3]) alpha
  = (Fin 0, Fin 4).
Proof.
  rewrite (interval_two_items _ [1; 3] alpha 2) by (simpl; lia || reflexivity).
  assert (Hmean : real_mean [1; 3] = 2)
    by (unfold real_mean, Rsum; simpl; field).
  assert (Hstd : real_std [1; 3] = sqrt 2).
  { unfold real_std. rewrite Hmean.
    unfold sum_of_squared_deviations, Rsum; simpl. f_equal. field. }
  assert (Hmargin : real_margin 2 [1; 3] = 2).
  { unfold real_margin. rewrite Hstd. simpl INR.
    replace (1 + 1) with 2 by lra.
    pose proof Rlt_sqrt2_0. field. lra. }
  rewrite Hmean, Hmargin. do 2 f_equal; lra.
Qed.

Example ci_contains_both_ends :
  ci_contains (Fin 0, Fin 4) 0 = true /\
  ci_contains (Fin 0, Fin 4) 4 = true /\
  ci_contains (Fin 0, Fin 4) 5 = false /\
  ci_contains (NaN, Fin 4) 1 = false.
Proof.
  unfold ci_contains, np.less_equal.
  repeat split; repeat (destruct (Rle_dec _ _)); try reflexivity; lra.
Qed.

Lemma interval_of_pair (z c alpha : R) :
  calculate_confidence_interval_of_sample_mean
    (fun _ => Fin z) (np.of_reals [c; c]) alpha
  = (Fin c, Fin c).
Proof.
  rewrite (interval_two_items _ [c; c] alpha z) by (simpl; lia || reflexivity).
  unfold real_margin. rewrite real_mean_pair, real_std_pair.
  do 2 f_equal; unfold Rdiv; ring.
Qed.

(** Two trials of two draws each: the first sample is [1500; 1500] and its
    interval misses 1000, the second is [1000; 1000] and its interval holds
    it; the coverage is 1/2. *)
Example coverage_of_two_trials :
  estimate_coverage (fun _ => Fin 2) 1000 50 2 (95 / 100) 2 tens_then_zeros
  = Ok (Fin (1 / 2), np.advance 4 tens_then_zeros).
Proof.
  rewrite estimate_coverage_mean by lra.
  assert (Hfirst : recorded_outcome (fun _ => Fin 2) 1000 50 2 (95 / 100)
                                    tens_then_zeros 0 = false).
  { unfold recorded_outcome, trial_outcome.
    change (trial_sample 1000 50 2 tens_then_zeros 0)
      with (np.of_reals [1000 + 50 * 10; 1000 + 50 * 10]).
    rewrite interval_of_pair. unfold ci_contains, np.less_equal.
    destruct (Rle_dec (1000 + 50 * 10) 1000); [lra|reflexivity]. }
  assert (Hsecond : recorded_outcome (fun _ => Fin 2) 1000 50 2 (95 / 100)
                                     tens_then_zeros 1 = true).
  { unfold recorded_outcome, trial_outcome.
    change (trial_sample 1000 50 2 tens_then_zeros 1)
      with (np.of_reals [1000 + 50 * 0; 1000 + 50 * 0]).
    rewrite interval_of_pair. unfold ci_contains, np.less_equal.
    destruct (Rle_dec (1000 + 50 * 0) 1000), (Rle_dec 1000 (1000 + 50 * 0));
      (reflexivity || lra). }
  replace (map (recorded_outcome (fun _ => Fin 2) 1000 50 2 (95 / 100)
                                tens_then_zeros) (seq 0 2))
    with [false; true] by (cbn [seq map]; now rewrite Hfirst, Hsecond).
  rewrite (mean_of_bools [false; true]) by discriminate.
  reflexivity.
Qed.

(** ** The theorems at concrete inputs *)


Lemma run_trial_lower_le_upper_witness :
  normal_quantile logistic_cdf logistic_ppf /\
  0 < 95 / 100 < 1 /\
  (2 <= length fixed_sample)%nat /\
  (2 <= Z.of_nat cell.N)%Z /\
  exists lb ub lb' ub' g',
    calculate_confidence_interval_of_sample_mean
      logistic_ppf (np.of_reals fixed_sample) (1 - 95 / 100) = (Fin lb, Fin ub) /\
    lb <= ub /\
    run_trial logistic_ppf cell.mu cell.sigma (Z.of_nat cell.N) (95 / 100) zeros
    = Ok ((Fin lb', Fin ub'), g') /\
    lb' <= ub'.
Proof.
  assert (Hsample : (2 <= length fixed_sample)%nat) by (simpl; lia).
  assert (HN : (2 <= Z.of_nat cell.N)%Z) by (unfold cell.N; lia).
  split; [exact logistic_meets_contract|]. split; [lra|].
  split; [exact Hsample|]. split; [exact HN|].
  destruct (run_trial_lower_le_upper logistic_cdf logistic_ppf (95 / 100)
              logistic_meets_contract) as [Hestimator Htrial]; [lra|].
  destruct (interval_ordered logistic_cdf logistic_ppf logistic_meets_contract
              fixed_sample (1 - 95 / 100) Hsample) as (lb & ub & E & _); [lra|].
  destruct (trial_sample_reals cell.mu cell.sigma cell.N zeros 0)
    as (xs & Exs & Hlen).
  destruct (interval_ordered logistic_cdf logistic_ppf logistic_meets_contract
              xs (1 - 95 / 100)) as (lb' & ub' & E' & _);
    [rewrite Hlen; unfold cell.N; lia|lra|].
  assert (Erun : run_trial logistic_ppf cell.mu cell.sigma (Z.of_nat cell.N)
                           (95 / 100) zeros
                 = Ok ((Fin lb', Fin ub'), np.advance cell.N zeros)).
  { rewrite run_trial_runs by (unfold cell.sigma; lra). now rewrite Exs, E'. }
  exists lb, ub, lb', ub', (np.advance cell.N zeros).
  split; [exact E|]. split; [exact (Hestimator fixed_sample lb ub Hsample E)|].
  split; [exact Erun|].
  exact (Htrial cell.mu cell.sigma (Z.of_nat cell.N) zeros lb' ub'
                (np.advance cell.N zeros) HN Erun).
Defined.


Lemma width_from_margin_witness :
  np.std 1 (np.of_reals [5; 5; 5]) = Fin 0 /\
  (fun _ : R => Fin 2) (1 - 5 / 100 / 2) = Fin 2 /\
  exists m,
    np.mean (np.of_reals [5; 5; 5]) = Fin m /\
    calculate_confidence_interval_of_sample_mean
      (fun _ => Fin 2) (np.of_reals [5; 5; 5]) (5 / 100)
    = (Fin m, Fin m) /\
    width (calculate_confidence_interval_of_sample_mean
             (fun _ => Fin 2) (np.of_reals [5; 5; 5]) (5 / 100)) = Fin 0.
Proof.
  assert (Hstd : np.std 1 (np.of_reals [5; 5; 5]) = Fin 0).
  { rewrite std_reals by discriminate.
    rewrite std_two_items by (simpl; lia).
    now rewrite real_std_triple_of_fives. }
  split; [exact Hstd|]. split; [reflexivity|].
  apply (proj1 (proj2 (width_from_margin (fun _ => Fin 2)))
           [5; 5; 5] (5 / 100) 2 Hstd).
  reflexivity.
Defined.

Lemma run_trial_raises_only_from_sampler_witness :
  (- cell.sigma < 0 \/ (1 < 0)%Z) /\
  run_trial logistic_ppf cell.mu (- cell.sigma) 1 (95 / 100) zeros
  = Raise ValueError /\
  (cell.sigma < 0 \/ (-1 < 0)%Z) /\
  run_trial logistic_ppf cell.mu cell.sigma (-1) (95 / 100) zeros
  = Raise ValueError /\
  0 < cell.sigma /\ (0 <= 1 < 2)%Z /\
  run_trial logistic_ppf cell.mu cell.sigma 1 (95 / 100) zeros
  = Ok ((NaN, NaN), np.advance (Z.to_nat 1) zeros) /\
  (1 <= cell.num_trials)%nat /\
  estimate_coverage logistic_ppf cell.mu (- cell.sigma) cell.N (95 / 100)
                    cell.num_trials zeros
  = Raise ValueError.
Proof.
  assert (Hpos : 0 < cell.sigma) by (unfold cell.sigma; lra).
  assert (Hneg : - cell.sigma < 0) by (unfold cell.sigma; lra).
  assert (Hnum : (1 <= cell.num_trials)%nat)
    by (unfold cell.num_trials; apply Nat.lt_0_mul'; split; apply Nat.lt_0_succ).
  assert (Hscale : - cell.sigma < 0 \/ (1 < 0)%Z) by now left.
  assert (Hsize : cell.sigma < 0 \/ (-1 < 0)%Z) by (right; lia).
  assert (Hone : (0 <= 1 < 2)%Z) by lia.
  split; [exact Hscale|]. split.
  { apply (run_trial_raises_only_from_sampler
             logistic_ppf cell.mu (- cell.sigma) 1 (95 / 100) cell.N
             cell.num_trials zeros).
    exact Hscale. }
  split; [exact Hsize|]. split.
  { apply (run_trial_raises_only_from_sampler
             logistic_ppf cell.mu cell.sigma (-1) (95 / 100) cell.N
             cell.num_trials zeros).
    exact Hsize. }
  split; [exact Hpos|]. split; [exact Hone|]. split.
  { apply (run_trial_raises_only_from_sampler
             logistic_ppf cell.mu cell.sigma 1 (95 / 100) cell.N
             cell.num_trials zeros); [exact Hpos|exact Hone]. }
  split; [exact Hnum|].
  apply (run_trial_raises_only_from_sampler
           logistic_ppf cell.mu (- cell.sigma) 1 (95 / 100) cell.N
           cell.num_trials zeros); [exact Hneg|exact Hnum].
Defined.

Lemma estimate_coverage_is_covering_fraction_witness :
  0 <= cell.sigma /\
  (1 <= 3)%nat /\
  exists outcomes,
    coverage_loop logistic_ppf cell.mu cell.sigma cell.N (1 - cell.alpha) 3 [] zeros
    = Ok (outcomes, np.advance (3 * cell.N) zeros) /\
    length outcomes = 3%nat /\
    (forall i, (i < 3)%nat ->
       nth i outcomes false = true <->
       holds (calculate_confidence_interval_of_sample_mean
                logistic_ppf (trial_sample cell.mu cell.sigma cell.N zeros i)
                (1 - (1 - cell.alpha)))
             cell.mu) /\
    estimate_coverage logistic_ppf cell.mu cell.sigma cell.N (1 - cell.alpha) 3 zeros
    = Ok (Fin (INR (covering outcomes) / INR 3), np.advance (3 * cell.N) zeros) /\
    0 <= INR (covering outcomes) / INR 3 <= 1.
Proof.
  assert (Hpos : 0 <= cell.sigma) by (unfold cell.sigma; lra).
  split; [exact Hpos|]. split; [lia|].
  apply (estimate_coverage_is_covering_fraction
           logistic_ppf cell.mu cell.sigma cell.N (1 - cell.alpha) 3 zeros);
    [exact Hpos|lia].
Defined.

Lemma coverage_is_order_independent_witness :
  Permutation [true; false; true] [false; true; true] /\
  np.mean (map np.of_bool [true; false; true])
  = np.mean (map np.of_bool [false; true; true]).
Proof.
  assert (Hperm : Permutation [true; false; true] [false; true; true])
    by apply perm_swap.
  split; [exact Hperm|].
  apply (proj1 (coverage_is_order_independent logistic_ppf cell.mu (95 / 100))).
  exact Hperm.
Defined.

Lemma scenario_computed_witness :
  (fun _ : R => Fin (195996 / 100000)) (1 - (1 - 95 / 100) / 2)
  = Fin (195996 / 100000) /\
  approx (1 / 100000) (195996 / 100000) (195996 / 100000) /\
  scenario (fun _ : R => Fin (195996 / 100000)) (1 / 1000) (10002 / 10)
           (3271 / 1000) (2867 / 1000) (997333 / 1000) (1003067 / 1000).
Proof.
  assert (Hnear : approx (1 / 100000) (195996 / 100000) (195996 / 100000)).
  { unfold approx. rewrite Rminus_diag, Rabs_R0. lra. }
  split; [reflexivity|]. split; [exact Hnear|].
  apply (scenario_computed (fun _ : R => Fin (195996 / 100000)) (195996 / 100000));
    [reflexivity|exact Hnear].
Defined.

(** ** More on the estimator *)

(** ** More on the estimator *)

Lemma fold_add_absorbs (arr : np.ndarray) : fold_left np.add arr NaN = NaN.
Proof. induction arr as [|a arr IH]; simpl; auto. Qed.

Lemma fold_add_with_NaN (arr : np.ndarray) (acc : npfloat) :
  In NaN arr -> fold_left np.add arr acc = NaN.
Proof.
  revert acc. induction arr as [|a arr IH]; intros acc Hin; [contradiction|].
  destruct Hin as [->|Hin]; simpl.
  - destruct acc; apply fold_add_absorbs.
  - now apply IH.
Qed.

Lemma mean_with_NaN (arr : np.ndarray) : In NaN arr -> np.mean arr = NaN.
Proof.
  intros H. unfold np.mean, np.umr_sum. now rewrite fold_add_with_NaN.
Qed.

(** X1.  A NaN anywhere in the sample makes both bounds NaN, whatever the
    quantile function and the level, and the trial then records False. *)
Theorem estimator_propagates_NaN
        (norm_ppf : R -> npfloat) (sample : np.ndarray) (alpha mu : R) :
  In NaN sample ->
  calculate_confidence_interval_of_sample_mean norm_ppf sample alpha = (NaN, NaN)
  /\ ci_contains
       (calculate_confidence_interval_of_sample_mean norm_ppf sample alpha) mu
     = false.
Proof.
  intros H.
  assert (E : calculate_confidence_interval_of_sample_mean norm_ppf sample alpha
              = (NaN, NaN)).
  { unfold calculate_confidence_interval_of_sample_mean.
    now rewrite (mean_with_NaN sample H). }
  split; [exact E|]. now rewrite E.
Qed.

(** ** More on the coverage loop *)

Lemma covering_map_none (f : nat -> bool) (l : list nat) :
  (forall i, In i l -> f i = false) -> covering (map f l) = 0%nat.
Proof.
  unfold covering. induction l as [|i l IH]; intros H; [reflexivity|].
  cbn [map count_occ]. rewrite (H i (or_introl eq_refl)).
  destruct (bool_dec false true) as [E|_]; [discriminate|].
  apply IH. intros j Hj. apply H. now right.
Qed.

Lemma estimate_coverage_fraction
      (norm_ppf : R -> npfloat) (mu sigma : R) (N : nat) (confidence_level : R)
      (num_trials : nat) (g : np.RandomState) :
  0 <= sigma -> (1 <= num_trials)%nat ->
  estimate_coverage norm_ppf mu sigma N confidence_level num_trials g
  = Ok (Fin (INR (covering
                    (map (recorded_outcome norm_ppf mu sigma N confidence_level g)
                         (seq 0 num_trials)))
             / INR num_trials),
        np.advance (num_trials * N) g).
Proof.
  intros Hsigma Hn. rewrite estimate_coverage_mean by assumption.
  rewrite mean_of_bools.
  - now rewrite length_map, length_seq.
  - destruct num_trials; [lia|discriminate].
Qed.

(** X5.  The loop can be cut anywhere: running [n1 + n2] trials is running
    [n1] trials and then [n2] more from the generator state and with the
    list that the first run left, errors included. *)
Theorem coverage_loop_splits
        (norm_ppf : R -> npfloat) (mu sigma : R) (N : nat) (confidence_level : R)
        (n1 n2 : nat) (recorded : list bool) (g : np.RandomState) :
  coverage_loop norm_ppf mu sigma N confidence_level (n1 + n2) recorded g
  = ' (recorded', g') <-
      coverage_loop norm_ppf mu sigma N confidence_level n1 recorded g ;;
    coverage_loop norm_ppf mu sigma N confidence_level n2 recorded' g'.
Proof.
  revert recorded g. induction n1 as [|k IH]; intros recorded g.
  - reflexivity.
  - cbn [Nat.add coverage_loop].
    destruct (run_trial norm_ppf mu sigma (Z.of_nat N) confidence_level g)
      as [[ci g']|e].
    + cbn [bind]. apply IH.
    + reflexivity.
Qed.

(** X8.  With a sample size below 2 nothing is raised and nothing is
    covered: every interval is (NaN, NaN), every trial records False, and
    the coverage is exactly 0, whatever the quantile function and the
    level. *)
Theorem coverage_of_undersized_samples
        (norm_ppf : R -> npfloat) (mu sigma : R) (N : nat) (confidence_level : R)
        (num_trials : nat) (g : np.RandomState) :
  0 <= sigma -> (N < 2)%nat -> (1 <= num_trials)%nat ->
  estimate_coverage norm_ppf mu sigma N confidence_level num_trials g
  = Ok (Fin 0, np.advance (num_trials * N) g).
Proof.
  intros Hsigma HN Hn.
  rewrite estimate_coverage_fraction by assumption.
  rewrite covering_map_none.
  - replace (INR 0 / INR num_trials) with 0 by (unfold Rdiv; simpl; ring).
    reflexivity.
  - intros i _. unfold recorded_outcome, trial_outcome.
    destruct (trial_sample_reals mu sigma N g i) as (xs & -> & Hlen).
    rewrite estimator_fewer_than_two_items by lia. reflexivity.
Qed.

(** ** The size of an experiment *)

(** ** The size of an experiment *)

Lemma np_sqrt_nonneg (x : R) : 0 <= x -> np.sqrt (Fin x) = Fin (sqrt x).
Proof.
  intros H. unfold np.sqrt. destruct (Rlt_dec x 0); [lra|reflexivity].
Qed.

Lemma np_sqrt_negative (x : R) : x < 0 -> np.sqrt (Fin x) = NaN.
Proof.
  intros H. unfold np.sqrt. destruct (Rlt_dec x 0); [reflexivity|lra].
Qed.

Lemma rate_variance_nonneg (p : R) : 0 <= p <= 1 -> 0 <= p * (1 - p).
Proof. intros H. nra. Qed.

Lemma experiment_size_value
      (norm_ppf : R -> npfloat) (p_null p_alt alpha beta z_null z_alt : R) :
  norm_ppf (1 - alpha) = Fin z_null ->
  norm_ppf beta = Fin z_alt ->
  0 <= p_null <= 1 -> 0 <= p_alt <= 1 -> p_alt <> p_null ->
  determine_experiment_size norm_ppf p_null p_alt alpha beta
  = Fin (IZR (Zceil (unrounded_size z_null z_alt p_null p_alt))).
Proof.
  intros Hn Ha Hp0 Hp1 Hdiff.
  pose proof (rate_variance_nonneg p_null Hp0) as V0.
  pose proof (rate_variance_nonneg p_alt Hp1) as V1.
  unfold determine_experiment_size. rewrite Hn, Ha.
  rewrite !np_sqrt_nonneg by lra.
  unfold np.multiply, np.subtract, np.lift2, np.true_divide.
  destruct (Req_dec_T (p_alt - p_null) 0) as [E|_]; [elim Hdiff; lra|].
  reflexivity.
Qed.

(** X12.  Rates that make a variance term negative are not rejected: when
    2 * p_null * (1 - p_null) < 0 (a null rate outside [0, 1]) or
    p_null * (1 - p_null) + p_alt * (1 - p_alt) < 0, the square root is NaN
    and the function returns NaN, whatever the other arguments. *)
Theorem experiment_size_of_invalid_rates
        (norm_ppf : R -> npfloat) (p_null p_alt alpha beta : R) :
  (p_null < 0 \/ 1 < p_null \/ p_null * (1 - p_null) + p_alt * (1 - p_alt) < 0) ->
  determine_experiment_size norm_ppf p_null p_alt alpha beta = NaN.
Proof.
  intros H. unfold determine_experiment_size.
  assert (Hcases : p_null * (1 - p_null) + p_null * (1 - p_null) < 0
                   \/ p_null * (1 - p_null) + p_alt * (1 - p_alt) < 0)
    by (destruct H as [H|[H|H]]; [left; nra|left; nra|now right]).
  destruct Hcases as [Hneg|Hneg]; rewrite (np_sqrt_negative _ Hneg).
  - destruct (norm_ppf (1 - alpha)), (norm_ppf beta),
      (np.sqrt (Fin (p_null * (1 - p_null) + p_alt * (1 - p_alt))));
      reflexivity.
  - destruct (norm_ppf (1 - alpha)), (norm_ppf beta),
      (np.sqrt (Fin (p_null * (1 - p_null) + p_null * (1 - p_null))));
      reflexivity.
Qed.

(** The call of the notebook, [determine_experiment_size(0.12, 0.14, 0.05,
    0.2)], with the two quantiles to six decimals: 3341, the value the
    notebook shows. *)
Example experiment_size_of_the_notebook
        (norm_ppf : R -> npfloat) (z_null z_alt : R) :
  norm_ppf (1 - 5 / 100) = Fin z_null ->
  norm_ppf (2 / 10) = Fin z_alt ->
  approx (1 / 1000000) z_null (16448536 / 10000000) ->
  approx (1 / 1000000) z_alt (- (8416212 / 10000000)) ->
  determine_experiment_size norm_ppf (12 / 100) (14 / 100) (5 / 100) (2 / 10)
  = Fin 3341.
Proof.
  intros En Ea Hn Ha.
  apply approx_between in Hn. apply approx_between in Ha.
  rewrite (experiment_size_value norm_ppf _ _ _ _ z_null z_alt En Ea)
    by lra.
  do 2 f_equal. apply Zceil_eq. unfold unrounded_size.
  assert (S0 : 4595650 / 10000000
               < sqrt (12 / 100 * (1 - 12 / 100) + 12 / 100 * (1 - 12 / 100))
               < 4595651 / 10000000) by (apply sqrt_between; lra).
  assert (S1 : 4753945 / 10000000
               < sqrt (12 / 100 * (1 - 12 / 100) + 14 / 100 * (1 - 14 / 100))
               < 4753946 / 10000000) by (apply sqrt_between; lra).
  set (s0 := sqrt (12 / 100 * (1 - 12 / 100) + 12 / 100 * (1 - 12 / 100))) in *.
  set (s1 := sqrt (12 / 100 * (1 - 12 / 100) + 14 / 100 * (1 - 14 / 100))) in *.
  assert (Hnum : 1156018 / 1000000 < z_null * s0 - z_alt * s1
                 < 1156021 / 1000000)
    by (split; nra).
  set (num := z_null * s0 - z_alt * s1) in *.
  replace ((num / (14 / 100 - 12 / 100)) ^ 2) with (2500 * (num * num))
    by (unfold Rdiv; field).
  split; nra.
Qed.

(** ** Precision and recall over the thresholds *)

Lemma count_cons (f : bool -> bool -> bool) (a b : bool) (y_true y_pred : list bool) :
  metrics.count f (a :: y_true) (b :: y_pred)
  = ((if f a b then 1 else 0) + metrics.count f y_true y_pred)%nat.
Proof. unfold metrics.count; simpl. destruct (f a b); reflexivity. Qed.

Lemma count_nil_r (f : bool -> bool -> bool) (y_true : list bool) :
  metrics.count f y_true [] = 0%nat.
Proof. unfold metrics.count. now destruct y_true. Qed.

Section Thresholding.

Variables f g : R -> bool.

Lemma true_positives_monotone (y_true : list bool) (probs : list R) :
  (forall p, In p probs -> g p = true -> f p = true) ->
  (metrics.true_positives y_true (map g probs)
   <= metrics.true_positives y_true (map f probs))%nat.
Proof.
  unfold metrics.true_positives.
  revert probs. induction y_true as [|a y IH]; intros [|p probs] H;
    try apply Nat.le_refl.
  cbn [map]. rewrite !count_cons.
  assert (IH' := IH probs (fun q Hq => H q (or_intror Hq))).
  specialize (H p (or_introl eq_refl)).
  destruct a, (g p), (f p); simpl; try lia; discriminate (H eq_refl).
Qed.

Lemma positives_found_or_missed (y_true : list bool) (probs : list R) :
  length y_true = length probs ->
  (metrics.true_positives y_true (map f probs)
   + metrics.false_negatives y_true (map f probs))%nat
  = positives y_true.
Proof.
  unfold metrics.true_positives, metrics.false_negatives, positives.
  revert probs. induction y_true as [|a y IH]; intros [|p probs] Hlen;
    try discriminate; [reflexivity|].
  cbn [map]. rewrite !count_cons. cbn [count_occ].
  injection Hlen as Hlen. specialize (IH probs Hlen).
  destruct a, (f p); destruct (bool_dec _ true) as [E|E];
    try discriminate; try (now elim E); simpl; lia.
Qed.

Lemma predicted_positives_all (y_true : list bool) (probs : list R) :
  length y_true = length probs ->
  (forall p, In p probs -> f p = true) ->
  (metrics.true_positives y_true (map f probs) = positives y_true
   /\ metrics.true_positives y_true (map f probs)
      + metrics.false_positives y_true (map f probs) = length y_true)%nat.
Proof.
  unfold metrics.true_positives, metrics.false_positives, positives.
  revert probs. induction y_true as [|a y IH]; intros [|p probs] Hlen H;
    try discriminate; [split; reflexivity|].
  cbn [map length]. rewrite !count_cons. cbn [count_occ].
  injection Hlen as Hlen.
  destruct (IH probs Hlen (fun q Hq => H q (or_intror Hq))) as [IH1 IH2].
  rewrite (H p (or_introl eq_refl)).
  destruct a; destruct (bool_dec _ true) as [E|E];
    try discriminate; try (now elim E); simpl; split; lia.
Qed.

Lemma predicted_positives_none (y_true : list bool) (probs : list R) :
  (forall p, In p probs -> f p = false) ->
  (metrics.true_positives y_true (map f probs) = 0
   /\ metrics.false_positives y_true (map f probs) = 0)%nat.
Proof.
  unfold metrics.true_positives, metrics.false_positives.
  revert probs. induction y_true as [|a y IH]; intros [|p probs] H;
    try (split; reflexivity).
  cbn [map]. rewrite !count_cons.
  destruct (IH probs (fun q Hq => H q (or_intror Hq))) as [IH1 IH2].
  rewrite (H p (or_introl eq_refl)), IH1, IH2.
  destruct a; split; reflexivity.
Qed.

End Thresholding.

Lemma greater_equal_length (probs : list R) (t : R) :
  length (np.greater_equal probs t) = length probs.
Proof. unfold np.greater_equal. apply length_map. Qed.

Lemma ratio_bounds (num den : nat) :
  (num <= den)%nat -> exists r, metrics.ratio num den = Fin r /\ 0 <= r <= 1.
Proof.
  intros H. unfold metrics.ratio.
  destruct (Nat.eqb_spec den 0) as [E|E].
  - exists 0. split; [reflexivity|lra].
  - exists (INR num / INR den). split; [reflexivity|].
    assert (Hden : 0 < INR den) by (apply lt_0_INR; lia).
    pose proof (pos_INR num) as Hnum. apply le_INR in H.
    split.
    + apply Rmult_le_pos; [assumption|]. left. now apply Rinv_0_lt_compat.
    + apply Rmult_le_reg_r with (INR den); [assumption|].
      unfold Rdiv. rewrite Rmult_assoc, Rinv_l by lra. lra.
Qed.

Lemma ratio_monotone (num1 num2 den : nat) :
  (num2 <= num1)%nat ->
  exists r1 r2,
    metrics.ratio num1 den = Fin r1 /\ metrics.ratio num2 den = Fin r2 /\ r2 <= r1.
Proof.
  intros H. unfold metrics.ratio.
  destruct (Nat.eqb_spec den 0) as [E|E].
  - exists 0, 0. repeat split; lra.
  - exists (INR num1 / INR den), (INR num2 / INR den).
    split; [reflexivity|]. split; [reflexivity|].
    assert (Hden : 0 < INR den) by (apply lt_0_INR; lia).
    apply le_INR in H. apply Rmult_le_compat_r; [|assumption].
    left. now apply Rinv_0_lt_compat.
Qed.

Lemma recall_score_value (y_test : list bool) (probs : list R) (t : R) :
  length y_test = length probs ->
  metrics.recall_score y_test (np.greater_equal probs t)
  = Ok (metrics.ratio
          (metrics.true_positives y_test (np.greater_equal probs t))
          (positives y_test)).
Proof.
  intros Hlen. unfold metrics.recall_score.
  rewrite greater_equal_length, Hlen, Nat.eqb_refl.
  unfold np.greater_equal. now rewrite positives_found_or_missed.
Qed.

Lemma recall_decreases (y_test : list bool) (probs : list R) (t1 t2 : R) :
  length y_test = length probs ->
  t1 <= t2 ->
  exists r1 r2,
    metrics.recall_score y_test (np.greater_equal probs t1) = Ok (Fin r1) /\
    metrics.recall_score y_test (np.greater_equal probs t2) = Ok (Fin r2) /\
    r2 <= r1.
Proof.
  intros Hlen Ht. rewrite !recall_score_value by assumption.
  destruct (ratio_monotone
              (metrics.true_positives y_test (np.greater_equal probs t1))
              (metrics.true_positives y_test (np.greater_equal probs t2))
              (positives y_test)) as (r1 & r2 & E1 & E2 & Hle).
  - unfold np.greater_equal. apply true_positives_monotone.
    intros p _. destruct (Rle_dec t2 p), (Rle_dec t1 p);
      try reflexivity; try discriminate. lra.
  - exists r1, r2. now rewrite E1, E2.
Qed.

(** X13.  Raising the threshold never raises the recall: for labels and
    probabilities of the same length and t1 <= t2, both recalls are numbers
    and the recall at [t2] is at most the recall at [t1]. *)
Theorem recall_never_rises_with_the_threshold
        (y_test : list bool) (preds_proba : list R) (t1 t2 : R) :
  length y_test = length preds_proba ->
  t1 <= t2 ->
  exists r1 r2,
    metrics.recall_score y_test (np.greater_equal preds_proba t1) = Ok (Fin r1) /\
    metrics.recall_score y_test (np.greater_equal preds_proba t2) = Ok (Fin r2) /\
    r2 <= r1.
Proof.
  intros Hlen Ht. rewrite !recall_score_value by assumption.
  destruct (ratio_monotone
              (metrics.true_positives y_test (np.greater_equal preds_proba t1))
              (metrics.true_positives y_test (np.greater_equal preds_proba t2))
              (positives y_test)) as (r1 & r2 & E1 & E2 & Hle).
  - unfold np.greater_equal. apply true_positives_monotone.
    intros p _. destruct (Rle_dec t2 p), (Rle_dec t1 p);
      try reflexivity; try discriminate. lra.
  - exists r1, r2. now rewrite E1, E2.
Qed.

(** X14.  For labels and probabilities of the same length, precision and
    recall at every threshold are numbers between 0 and 1, a zero
    denominator included; for different lengths both calls raise
    [ValueError]. *)
Theorem precision_and_recall_are_fractions
        (y_test : list bool) (preds_proba : list R) (t : R) :
  (length y_test = length preds_proba ->
   exists p r,
     metrics.precision_score y_test (np.greater_equal preds_proba t) = Ok (Fin p) /\
     metrics.recall_score y_test (np.greater_equal preds_proba t) = Ok (Fin r) /\
     0 <= p <= 1 /\ 0 <= r <= 1)
  /\
  (length y_test <> length preds_proba ->
   metrics.precision_score y_test (np.greater_equal preds_proba t)
   = Raise ValueError /\
   metrics.recall_score y_test (np.greater_equal preds_proba t)
   = Raise ValueError).
Proof.
  split; intros Hlen.
  - unfold metrics.precision_score, metrics.recall_score.
    rewrite greater_equal_length, Hlen, Nat.eqb_refl.
    destruct (ratio_bounds
                (metrics.true_positives y_test (np.greater_equal preds_proba t))
                (metrics.true_positives y_test (np.greater_equal preds_proba t)
                 + metrics.false_positives y_test (np.greater_equal preds_proba t)))
      as (p & Ep & Hp); [lia|].
    destruct (ratio_bounds
                (metrics.true_positives y_test (np.greater_equal preds_proba t))
                (metrics.true_positives y_test (np.greater_equal preds_proba t)
                 + metrics.false_negatives y_test (np.greater_equal preds_proba t)))
      as (r & Er & Hr); [lia|].
    exists p, r. now rewrite Ep, Er.
  - unfold metrics.precision_score, metrics.recall_score.
    rewrite greater_equal_length.
    destruct (Nat.eqb_spec (length y_test) (length preds_proba)) as [E|_];
      [contradiction|split; reflexivity].
Qed.

Lemma scores_at_the_ends
        (y_test : list bool) (preds_proba : list R) (t : R) :
  length y_test = length preds_proba ->
  ((forall p, In p preds_proba -> p < t) ->
   metrics.precision_score y_test (np.greater_equal preds_proba t) = Ok (Fin 0) /\
   metrics.recall_score y_test (np.greater_equal preds_proba t) = Ok (Fin 0))
  /\
  ((forall p, In p preds_proba -> t <= p) ->
   (0 < positives y_test)%nat ->
   metrics.precision_score y_test (np.greater_equal preds_proba t)
   = Ok (Fin (INR (positives y_test) / INR (length y_test))) /\
   metrics.recall_score y_test (np.greater_equal preds_proba t) = Ok (Fin 1)).
Proof.
  intros Hlen. split.
  - intros Hbelow.
    destruct (predicted_positives_none
                (fun p => if Rle_dec t p then true else false) y_test preds_proba)
      as [Htp Hfp].
    { intros p Hp. specialize (Hbelow p Hp). destruct (Rle_dec t p); [lra|reflexivity]. }
    rewrite recall_score_value by assumption.
    unfold metrics.precision_score.
    rewrite greater_equal_length, <- Hlen, Nat.eqb_refl.
    unfold np.greater_equal. rewrite Htp, Hfp. split; [reflexivity|].
    unfold metrics.ratio. destruct (positives y_test =? 0)%nat; [reflexivity|].
    do 2 f_equal. unfold Rdiv. simpl. ring.
  - intros Habove Hpos.
    destruct (predicted_positives_all
                (fun p => if Rle_dec t p then true else false) y_test preds_proba
                Hlen) as [Htp Hall].
    { intros p Hp. specialize (Habove p Hp). destruct (Rle_dec t p); [reflexivity|lra]. }
    rewrite recall_score_value by assumption.
    unfold metrics.precision_score.
    rewrite greater_equal_length, <- Hlen, Nat.eqb_refl.
    unfold np.greater_equal. rewrite Hall, Htp.
    assert (Hlenpos : (0 < length y_test)%nat)
      by (pose proof (count_occ_bound bool_dec true y_test); unfold positives in Hpos; lia).
    unfold metrics.ratio.
    destruct (Nat.eqb_spec (length y_test) 0) as [E|_]; [lia|].
    destruct (Nat.eqb_spec (positives y_test) 0) as [E|_]; [lia|].
    split; [reflexivity|]. do 2 f_equal.
    assert (0 < INR (positives y_test)) by now apply lt_0_INR.
    field. lra.
Qed.

(** X15.  The two ends of the sweep.  At a threshold above every
    probability nothing is classified positive and precision and recall are
    both 0.  At a threshold that no probability is below, everything is
    classified positive: precision is the share of positive labels, and
    recall is 1 when there is a positive label. *)
Theorem precision_and_recall_at_the_ends
        (y_test : list bool) (preds_proba : list R) (t : R) :
  length y_test = length preds_proba ->
  ((forall p, In p preds_proba -> p < t) ->
   metrics.precision_score y_test (np.greater_equal preds_proba t) = Ok (Fin 0) /\
   metrics.recall_score y_test (np.greater_equal preds_proba t) = Ok (Fin 0))
  /\
  ((forall p, In p preds_proba -> t <= p) ->
   (0 < positives y_test)%nat ->
   metrics.precision_score y_test (np.greater_equal preds_proba t)
   = Ok (Fin (INR (positives y_test) / INR (length y_test))) /\
   metrics.recall_score y_test (np.greater_equal preds_proba t) = Ok (Fin 1)).
Proof.
  intros Hlen. split.
  - intros Hbelow.
    destruct (predicted_positives_none
                (fun p => if Rle_dec t p then true else false) y_test preds_proba)
      as [Htp Hfp].
    { intros p Hp. specialize (Hbelow p Hp). destruct (Rle_dec t p); [lra|reflexivity]. }
    rewrite recall_score_value by assumption.
    unfold metrics.precision_score.
    rewrite greater_equal_length, <- Hlen, Nat.eqb_refl.
    unfold np.greater_equal. rewrite Htp, Hfp. split; [reflexivity|].
    unfold metrics.ratio. destruct (positives y_test =? 0)%nat; [reflexivity|].
    do 2 f_equal. unfold Rdiv. simpl. ring.
  - intros Habove Hpos.
    destruct (predicted_positives_all
                (fun p => if Rle_dec t p then true else false) y_test preds_proba
                Hlen) as [Htp Hall].
    { intros p Hp. specialize (Habove p Hp). destruct (Rle_dec t p); [reflexivity|lra]. }
    rewrite recall_score_value by assumption.
    unfold metrics.precision_score.
    rewrite greater_equal_length, <- Hlen, Nat.eqb_refl.
    unfold np.greater_equal. rewrite Hall, Htp.
    assert (Hlenpos : (0 < length y_test)%nat)
      by (pose proof (count_occ_bound bool_dec true y_test); unfold positives in Hpos; lia).
    unfold metrics.ratio.
    destruct (Nat.eqb_spec (length y_test) 0) as [E|_]; [lia|].
    destruct (Nat.eqb_spec (positives y_test) 0) as [E|_]; [lia|].
    split; [reflexivity|]. do 2 f_equal.
    assert (0 < INR (positives y_test)) by now apply lt_0_INR.
    field. lra.
Qed.

Lemma thresholds_values :
  thresholds = map (fun i => 0 + INR i * (5 / 100)) (seq 0 21).
Proof.
  unfold thresholds, np.arange.
  replace (Zceil ((105 / 100 - 0) / (5 / 100))) with 21%Z; [reflexivity|].
  symmetry. apply Zceil_eq.
  replace ((105 / 100 - 0) / (5 / 100)) with 21 by field. lra.
Qed.

Lemma comprehension_of_values {A B : Type} (body : A -> result B) (f : A -> B)
      (l : list A) :
  (forall a, body a = Ok (f a)) -> comprehension body l = Ok (map f l).
Proof.
  intros H. induction l as [|a l IH]; [reflexivity|].
  cbn [comprehension map]. now rewrite H, IH.
Qed.

Lemma nth_map_seq_real (f : nat -> R) (n i : nat) :
  (i < n)%nat -> nth i (map f (seq 0 n)) 0 = f i.
Proof.
  intros H. rewrite (nth_indep _ 0 (f 0%nat)) by now rewrite length_map, length_seq.
  rewrite map_nth, seq_nth by assumption. reflexivity.
Qed.

(** X16.  The recall curve of the notebook.  The thresholds are the 21
    values 0, 0.05, ..., 1; for labels and probabilities of the same length
    the comprehension returns 21 recalls, none larger than an earlier one;
    and the first, at threshold 0, is 1 when no probability is negative and
    some label is positive. *)
Theorem recall_curve_of_the_notebook (y_test : list bool) (preds_proba : list R) :
  length y_test = length preds_proba ->
  exists recalls : list R,
    recall_scores thresholds y_test preds_proba = Ok (map Fin recalls) /\
    length recalls = 21%nat /\
    (forall i j, (i <= j < 21)%nat -> nth j recalls 0 <= nth i recalls 0) /\
    ((forall p, In p preds_proba -> 0 <= p) ->
     (0 < positives y_test)%nat ->
     nth 0 recalls 0 = 1).
Proof.
  intros Hlen.
  set (recall_at := fun t : R =>
         match metrics.ratio
                 (metrics.true_positives y_test (np.greater_equal preds_proba t))
                 (positives y_test)
         with
         | Fin r => r
         | NaN => 0
         end).
  assert (Hbody : forall t,
             metrics.recall_score y_test (np.greater_equal preds_proba t)
             = Ok (Fin (recall_at t))).
  { intros t. rewrite recall_score_value by assumption.
    unfold recall_at, metrics.ratio.
    destruct (positives y_test =? 0)%nat; reflexivity. }
  set (threshold := fun i : nat => 0 + INR i * (5 / 100)).
  exists (map recall_at thresholds).
  split.
  { unfold recall_scores.
    rewrite (comprehension_of_values _ (fun t => Fin (recall_at t)) _ Hbody).
    now rewrite map_map. }
  rewrite thresholds_values, map_map. fold threshold.
  split; [now rewrite length_map, length_seq|].
  split.
  - intros i j Hij. rewrite !nth_map_seq_real by lia.
    assert (Ht : threshold i <= threshold j).
    { unfold threshold. assert (INR i <= INR j) by (apply le_INR; lia). lra. }
    destruct (recall_decreases y_test preds_proba _ _ Hlen Ht)
      as (r1 & r2 & E1 & E2 & Hle).
    rewrite Hbody in E1, E2.
    injection E1 as <-. injection E2 as <-. exact Hle.
  - intros Hprobs Hpos. rewrite nth_map_seq_real by lia.
    assert (Hzero : forall p, In p preds_proba -> threshold 0%nat <= p).
    { intros p Hp. specialize (Hprobs p Hp). unfold threshold. simpl. lra. }
    destruct (proj2 (scores_at_the_ends y_test preds_proba (threshold 0%nat) Hlen)
                    Hzero Hpos) as [_ E].
    rewrite Hbody in E. now injection E.
Qed.

(** ** The further theorems at concrete inputs *)

(** ** The further theorems at concrete inputs *)

Lemma estimator_propagates_NaN_witness :
  In NaN [Fin 1; NaN] /\
  calculate_confidence_interval_of_sample_mean logistic_ppf [Fin 1; NaN] (5 / 100)
  = (NaN, NaN) /\
  ci_contains
    (calculate_confidence_interval_of_sample_mean
       logistic_ppf [Fin 1; NaN] (5 / 100)) 1
  = false.
Proof.
  assert (Hin : In NaN [Fin 1; NaN]) by (right; now left).
  split; [exact Hin|].
  apply (estimator_propagates_NaN logistic_ppf [Fin 1; NaN] (5 / 100) 1 Hin).
Defined.

Lemma coverage_of_undersized_samples_witness :
  0 <= cell.sigma /\ (1 < 2)%nat /\ (1 <= 3)%nat /\
  estimate_coverage logistic_ppf cell.mu cell.sigma 1 (95 / 100) 3 tens_then_zeros
  = Ok (Fin 0, np.advance (3 * 1) tens_then_zeros).
Proof.
  assert (Hsigma : 0 <= cell.sigma) by (unfold cell.sigma; lra).
  split; [exact Hsigma|]. split; [lia|]. split; [lia|].
  apply (coverage_of_undersized_samples logistic_ppf cell.mu cell.sigma 1
           (95 / 100) 3 tens_then_zeros Hsigma); lia.
Defined.

Lemma experiment_size_of_invalid_rates_witness :
  (- (1 / 10) < 0 \/ 1 < - (1 / 10)
   \/ - (1 / 10) * (1 - - (1 / 10)) + 14 / 100 * (1 - 14 / 100) < 0) /\
  determine_experiment_size logistic_ppf (- (1 / 10)) (14 / 100) (5 / 100) (2 / 10)
  = NaN.
Proof.
  assert (H : - (1 / 10) < 0 \/ 1 < - (1 / 10)
              \/ - (1 / 10) * (1 - - (1 / 10)) + 14 / 100 * (1 - 14 / 100) < 0)
    by (left; lra).
  split; [exact H|].
  apply (experiment_size_of_invalid_rates
           logistic_ppf (- (1 / 10)) (14 / 100) (5 / 100) (2 / 10) H).
Defined.

Lemma recall_never_rises_with_the_threshold_witness :
  length [true; false; true] = length [9 / 10; 2 / 10; 3 / 10] /\
  1 / 10 <= 1 / 2 /\
  exists r1 r2,
    metrics.recall_score [true; false; true]
                         (np.greater_equal [9 / 10; 2 / 10; 3 / 10] (1 / 10))
    = Ok (Fin r1) /\
    metrics.recall_score [true; false; true]
                         (np.greater_equal [9 / 10; 2 / 10; 3 / 10] (1 / 2))
    = Ok (Fin r2) /\
    r2 <= r1.
Proof.
  split; [reflexivity|]. split; [lra|].
  apply (recall_never_rises_with_the_threshold
           [true; false; true] [9 / 10; 2 / 10; 3 / 10] (1 / 10) (1 / 2));
    [reflexivity|lra].
Defined.

Lemma precision_and_recall_are_fractions_witness :
  length [true; false; true] = length [9 / 10; 2 / 10; 3 / 10] /\
  (exists p r,
      metrics.precision_score [true; false; true]
                              (np.greater_equal [9 / 10; 2 / 10; 3 / 10] (1 / 2))
      = Ok (Fin p) /\
      metrics.recall_score [true; false; true]
                           (np.greater_equal [9 / 10; 2 / 10; 3 / 10] (1 / 2))
      = Ok (Fin r) /\
      0 <= p <= 1 /\ 0 <= r <= 1) /\
  length [true; false] <> length [9 / 10; 2 / 10; 3 / 10] /\
  metrics.precision_score [true; false]
                          (np.greater_equal [9 / 10; 2 / 10; 3 / 10] (1 / 2))
  = Raise ValueError.
Proof.
  split; [reflexivity|]. split.
  - apply (proj1 (precision_and_recall_are_fractions
                    [true; false; true] [9 / 10; 2 / 10; 3 / 10] (1 / 2))).
    reflexivity.
  - split; [discriminate|].
    apply (proj2 (precision_and_recall_are_fractions
                    [true; false] [9 / 10; 2 / 10; 3 / 10] (1 / 2))).
    discriminate.
Defined.

Lemma precision_and_recall_at_the_ends_witness :
  length [true; false; true] = length [9 / 10; 2 / 10; 3 / 10] /\
  (forall p, In p [9 / 10; 2 / 10; 3 / 10] -> p < 1) /\
  metrics.precision_score [true; false; true]
                          (np.greater_equal [9 / 10; 2 / 10; 3 / 10] 1)
  = Ok (Fin 0) /\
  metrics.recall_score [true; false; true]
                       (np.greater_equal [9 / 10; 2 / 10; 3 / 10] 1)
  = Ok (Fin 0).
Proof.
  assert (Hbelow : forall p, In p [9 / 10; 2 / 10; 3 / 10] -> p < 1).
  { intros p [<-|[<-|[<-|[]]]]; lra. }
  split; [reflexivity|]. split; [exact Hbelow|].
  apply (proj1 (precision_and_recall_at_the_ends
                  [true; false; true] [9 / 10; 2 / 10; 3 / 10] 1 eq_refl)).
  exact Hbelow.
Defined.

Lemma recall_curve_of_the_notebook_witness :
  length [true; false; true] = length [9 / 10; 2 / 10; 3 / 10] /\
  exists recalls : list R,
    recall_scores thresholds [true; false; true] [9 / 10; 2 / 10; 3 / 10]
    = Ok (map Fin recalls) /\
    length recalls = 21%nat /\
    (forall i j, (i <= j < 21)%nat -> nth j recalls 0 <= nth i recalls 0) /\
    ((forall p, In p [9 / 10; 2 / 10; 3 / 10] -> 0 <= p) ->
     (0 < positives [true; false; true])%nat ->
     nth 0 recalls 0 = 1).
Proof.
  split; [reflexivity|].
  apply (recall_curve_of_the_notebook
           [true; false; true] [9 / 10; 2 / 10; 3 / 10]).
  reflexivity.
Defined.
